(** * Verification of the hospitality inference service

    A shallow embedding of [src/ml/inference_service.py]: the license gate
    ([LicenseVerifier]), the model cache ([load_model]), the feature vector
    built for the estimators, and the four prediction handlers with their
    post-processing.

    Conventions of the embedding.
    - Python numbers are exact rationals ([Q]); statements about them use
      [==] ([Qeq]).  Binary rounding of IEEE floats is outside the model;
      the range of the formats is not: an [int] too large for a [float]
      raises where the code converts it, and a number too large for a
      [float32] becomes an infinity in a [float32] array.
    - [datetime] values are integers ([Z]), a count of microseconds; every
      reading of [datetime.now()] is an explicit argument.
    - Code that raises returns [inl e]; the module-level dict
      [LOADED_MODELS], the files below [MODELS_DIR] and a log of the storage
      accesses are threaded through a state-and-exception monad. *)

From Stdlib Require Import ZArith QArith Qround Qabs String List Lia Lqa.
From stdpp Require Import gmap strings list fin_maps.

Local Open Scope Z_scope.
Local Open Scope string_scope.

(** ** Python numbers *)

Module PyNum.

(** [a > b] and [a < b] on numbers. *)
Definition gt (a b : Q) : bool := negb (Qle_bool a b).
Definition lt (a b : Q) : bool := negb (Qle_bool b a).

(** [max(a, b)] keeps its first argument unless the second is strictly
    greater; [min(a, b)] keeps it unless the second is strictly smaller. *)
Definition max (a b : Q) : Q := if gt b a then b else a.
Definition min (a b : Q) : Q := if lt b a then b else a.

(** Rounding to the nearest integer, ties to the even neighbour. *)
Definition round_half_even (x : Q) : Z :=
  let f := Qfloor x in
  match (x - inject_Z f ?= 1 # 2)%Q with
  | Lt => f
  | Gt => f + 1
  | Eq => if Z.even f then f else f + 1
  end.

(** [round(x, ndigits)]. *)
Definition round (x : Q) (ndigits : nat) : Q :=
  let scale := inject_Z (10 ^ Z.of_nat ndigits) in
  (inject_Z (round_half_even (x * scale)) / scale)%Q.

End PyNum.

(** ** Python values and exceptions *)

(** An element of a [float32] array. *)
Inductive npfloat : Type :=
| Fin (q : Q)
| NaN
| Inf (negative : bool).

(** The values of a decoded JSON request.  An [int] is unbounded; a [float]
    is a finite double, given by its value.  A [str] is kept with the float
    that numpy reads from it, [None] when the text is not a float literal.
    JSON arrays, which would change the rank of the array built from them,
    and floats that are not finite are not represented. *)
#[warnings="-register-all"]
Inductive pyval : Type :=
| PyNone
| PyBool (b : bool)
| PyInt (z : Z)
| PyFloat (q : Q)
| PyStr (s : string) (literal : option npfloat)
| PyDict (d : gmap string pyval).

(** Exceptions.  [HTTPException] carries the status code and the detail the
    code gives it; a detail built with an f-string from another exception
    keeps that exception ([MsgStr prefix e] is [f"{prefix}{str(e)}"]). *)
Inductive exn : Type :=
| PyExc (cls : string) (msg : string)
| HTTPException (status_code : Z) (detail : detail)
with detail : Type :=
| Msg (s : string)
| MsgStr (prefix : string) (e : exn).

Definition result (A : Type) : Type := (exn + A)%type.

Definition rbind {A B} (r : result A) (k : A -> result B) : result B :=
  match r with
  | inl e => inl e
  | inr a => k a
  end.

Fixpoint rmap {A B} (f : A -> result B) (l : list A) : result (list B) :=
  match l with
  | [] => inr []
  | x :: l' => rbind (f x) (fun y => rbind (rmap f l') (fun ys => inr (y :: ys)))
  end.

Module Py.

(** The value of a number: an [int], a [float] or a [bool]. *)
Definition number (v : pyval) : option Q :=
  match v with
  | PyBool b => Some (if b then 1 else 0)%Q
  | PyInt z => Some (inject_Z z)
  | PyFloat q => Some q
  | _ => None
  end.

(** An [int] converts to a [float] when its magnitude is below
    [2^1024 - 2^970], the first value that rounds beyond the largest
    double; from there on the conversion raises [OverflowError]. *)
Definition double_limit : Z := 2 ^ 1024 - 2 ^ 970.

Definition fits_double (z : Z) : bool := (Z.abs z <? double_limit)%Z.

Definition int_too_large : exn :=
  PyExc "OverflowError" "int too large to convert to float".

(** A double becomes an infinity of a [float32] array when its magnitude
    reaches [2^128 - 2^103], half way between the largest [float32] and
    [2^128].  An [int] goes through a double first, and the ints that round
    to such a double are those of magnitude [2^128 - 2^103 - 2^74] or
    more. *)
Definition float32_limit : Z := 2 ^ 128 - 2 ^ 103.

Definition int_float32_limit : Z := 2 ^ 128 - 2 ^ 103 - 2 ^ 74.

(** The [float32] a number of value [q] gives, [limit] being the magnitude
    from which it is an infinity. *)
Definition to_float32 (limit : Z) (q : Q) : npfloat :=
  if Qle_bool (inject_Z limit) (Qabs q)
  then Inf (negb (Qle_bool 0 q))
  else Fin q.

(** Conversion of one element by [np.array(..., dtype=np.float32)]. *)
Definition np_float32 (v : pyval) : result npfloat :=
  match v with
  | PyNone => inr NaN
  | PyBool b => inr (Fin (if b then 1 else 0)%Q)
  | PyInt z =>
      if fits_double z
      then inr (to_float32 int_float32_limit (inject_Z z))
      else inl int_too_large
  | PyFloat q => inr (to_float32 float32_limit q)
  | PyStr s (Some x) => inr x
  | PyStr s None =>
      inl (PyExc "ValueError"
             ("could not convert string to float: '" ++ s ++ "'"))
  | PyDict _ =>
      inl (PyExc "TypeError"
             "float() argument must be a string or a real number, not 'dict'")
  end.


(** [d.get(key, dflt)]; only a dict has the method. *)
Definition get (d : pyval) (key : string) (dflt : pyval) : result pyval :=
  match d with
  | PyDict m => inr (default dflt (m !! key))
  | _ => inl (PyExc "AttributeError" "object has no attribute 'get'")
  end.

(** [np.array([[d.get(f, 0) for f in feature_list]], dtype=np.float32)]:
    the list comprehension first, then the conversion of the row of the
    1 x n array. *)
Definition feature_vector (feature_list : list string)
    (features_dict : pyval) : result (list npfloat) :=
  rbind (rmap (fun f => get features_dict f (PyInt 0)) feature_list)
        (rmap np_float32).

End Py.

(** ** The license gate *)

Module License.

(** The attributes of a [LicenseVerifier] instance. *)
Record LicenseVerifier : Type := {
  license_key : option string;
  is_valid : bool;
  expires_at : option Z;
  features : gmap string bool
}.

(** [timedelta(days=n)] in microseconds. *)
Definition timedelta_days (n : Z) : Z := n * 86400 * 1000000.

(** Truth value of an optional [str]: [None] and [''] are false. *)
Definition truthy (s : option string) : bool :=
  match s with
  | Some s => negb (String.eqb s "")
  | None => false
  end.

(** [a or b]. *)
Definition py_or (a b : option string) : option string :=
  if truthy a then a else b.

(** The entitlements a verified key receives. *)
Definition granted_features : gmap string bool :=
  <["demand_forecasting" := true]>
    (<["dynamic_pricing" := true]>
       (<["guest_churn" := true]>
          (<["fraud_detection" := true]>
             (<["maintenance_prediction" := true]> ∅)))).

(** [verify]: the updated instance and the returned flag.  Nothing in the
    body of the [try] raises, so the handler of the [except] is never
    entered. *)
Definition verify (self : LicenseVerifier) (now : Z)
    : LicenseVerifier * bool :=
  match license_key self with
  | Some key =>
      if truthy (Some key) && (20 <? Z.of_nat (String.length key))%Z
      then ({| license_key := license_key self;
               is_valid := true;
               expires_at := Some (now + timedelta_days 30);
               features := granted_features |}, true)
      else (self, false)
  | None => (self, false)
  end.

(** [__init__]: [environ_key] is [os.environ.get('LICENSE_KEY')]. *)
Definition init (key : option string) (environ_key : option string)
    (now : Z) : LicenseVerifier :=
  let self := {| license_key := py_or key environ_key;
                 is_valid := false;
                 expires_at := None;
                 features := ∅ |} in
  if truthy (license_key self) then fst (verify self now) else self.

(** [can_use_feature], called when the clock reads [now]. *)
Definition can_use_feature (self : LicenseVerifier) (feature : string)
    (now : Z) : bool :=
  if negb (is_valid self) then false
  else if match expires_at self with
          | Some e => (e <? now)%Z
          | None => false
          end
  then false
  else default false (features self !! feature).

End License.

(** ** The model cache *)

Module Registry.

(** A fitted estimator, through the calls the handlers make on the one-row
    array [X]: [predict(X)[0]], [predict_proba(X)[0][1]],
    [score_samples(X)[0]] and [transform(X)].  A method the object does not
    have raises. *)
Record estimator : Type := {
  predict : list npfloat -> result Q;
  predict_proba : list npfloat -> result Q;
  score_samples : list npfloat -> result Q;
  transform : list npfloat -> result (list npfloat)
}.

(** What [pickle.load] returns: an estimator, as the pricing pipeline
    dumps it, or a dict of estimators (an entry may hold [None]), as the
    fraud and churn pipelines dump it. *)
Inductive pickled : Type :=
| PEstimator (m : estimator)
| PBundle (d : gmap string (option estimator)).

(** A well-formed metadata document, as the pipelines write it: a JSON
    object, with the keys the service reads at the types the pipelines give
    them; a key the document lacks is [None].  Documents of another shape
    are not represented. *)
Record Metadata : Type := {
  feature_schema : option (list string);
  model_version : option string;
  evaluation_metrics : option (gmap string Q);
  unsupervised_metrics : option (gmap string Q)
}.

(** The dict [{'model': .., 'metadata': .., 'loaded_at': ..}] built by
    [load_model]; [oid] is the identity of the dict object. *)
Record artifact : Type := {
  oid : nat;
  model : pickled;
  metadata : Metadata;
  loaded_at : Z
}.

(** A file, through what opening it and running [pickle.load] or
    [json.load] on it gives; a failure of [open] is counted with those of
    the loader. *)
Record file : Type := {
  pickle_load : result pickled;
  json_load : result Metadata
}.

Inductive io_event : Type :=
| Exists (path : string)
| Open (path : string).

(** The state the service runs in. *)
Record world : Type := {
  LOADED_MODELS : gmap string artifact;
  files : gmap string file;
  io_log : list io_event;
  next_oid : nat
}.

(** Computations that read and write the state and may raise. *)
Definition M (A : Type) : Type := world -> result A * world.

Definition ret {A} (a : A) : M A := fun w => (inr a, w).

Definition raise {A} (e : exn) : M A := fun w => (inl e, w).

Definition bind {A B} (c : M A) (k : A -> M B) : M B :=
  fun w => match c w with
           | (inl e, w') => (inl e, w')
           | (inr a, w') => k a w'
           end.

Definition lift {A} (r : result A) : M A := fun w => (r, w).

(** [try: body  except Exception as e: handler e]. *)
Definition try_except {A} (body : M A) (handler : exn -> M A) : M A :=
  fun w => match body w with
           | (inl e, w') => handler e w'
           | (inr a, w') => (inr a, w')
           end.

Declare Scope py_scope.
Delimit Scope py_scope with py.
Notation "x <- c ;; k" := (bind c (fun x => k))
  (at level 100, c at next level, right associativity) : py_scope.
Notation "c ;;; k" := (bind c (fun _ => k))
  (at level 100, right associativity) : py_scope.

Definition record_io (ev : io_event) (w : world) : world :=
  {| LOADED_MODELS := LOADED_MODELS w;
     files := files w;
     io_log := (io_log w ++ [ev])%list;
     next_oid := next_oid w |}.

(** [path.exists()]. *)
Definition path_exists (path : string) : M bool :=
  fun w => (inr (bool_decide (is_Some (files w !! path))),
            record_io (Exists path) w).

(** [with open(path) as f: load(f)]. *)
Definition open_and {A} (load : file -> result A) (path : string) : M A :=
  fun w => (match files w !! path with
            | Some f => load f
            | None => inl (PyExc "FileNotFoundError" path)
            end,
            record_io (Open path) w).

(** [model_name in LOADED_MODELS] and [LOADED_MODELS[model_name]]. *)
Definition cached (model_name : string) : M (option artifact) :=
  fun w => (inr (LOADED_MODELS w !! model_name), w).

(** The dict display that builds [result]: a new object. *)
Definition new_result (model_data : pickled) (md : Metadata) (now : Z)
    : M artifact :=
  fun w => (inr {| oid := next_oid w; model := model_data;
                   metadata := md; loaded_at := now |},
            {| LOADED_MODELS := LOADED_MODELS w;
               files := files w;
               io_log := io_log w;
               next_oid := S (next_oid w) |}).

(** [LOADED_MODELS[model_name] = result]. *)
Definition store (model_name : string) (a : artifact) : M unit :=
  fun w => (inr tt,
            {| LOADED_MODELS := <[model_name := a]> (LOADED_MODELS w);
               files := files w;
               io_log := io_log w;
               next_oid := next_oid w |}).

Definition MODELS_DIR : string := "models".

Definition model_path (model_name : string) : string :=
  MODELS_DIR ++ "/" ++ model_name ++ ".pkl".

Definition metadata_path (model_name : string) : string :=
  MODELS_DIR ++ "/" ++ model_name ++ "_metadata.json".

Local Open Scope py_scope.

Definition load_model (model_name : string) (now : Z) : M artifact :=
  hit <- cached model_name ;;
  match hit with
  | Some a => ret a
  | None =>
      present <- path_exists (model_path model_name) ;;
      if negb present
      then raise (HTTPException 404
                    (Msg ("Model " ++ model_name ++ " not found")))
      else
        try_except
          (model_data <- open_and pickle_load (model_path model_name) ;;
           md <- open_and json_load (metadata_path model_name) ;;
           result <- new_result model_data md now ;;
           store model_name result ;;;
           ret result)
          (fun e => raise (HTTPException 500
                             (MsgStr "Error loading model: " e)))
  end.

End Registry.

(** ** The prediction handlers *)

Module Dispatcher.

Import Registry.
Local Open Scope py_scope.

(** The three readings of [datetime.now()] a handler makes: in
    [can_use_feature], in [load_model] and for the response. *)
Record clock : Type := {
  at_gate : Z;
  at_load : Z;
  at_response : Z
}.

(** [obj[key]] on the unpickled object. *)
Definition subscript (obj : pickled) (key : string)
    : result (option estimator) :=
  match obj with
  | PBundle d =>
      match d !! key with
      | Some v => inr v
      | None => inl (PyExc "KeyError" key)
      end
  | PEstimator _ =>
      inl (PyExc "TypeError" "object is not subscriptable")
  end.

(** [obj.get(key)] on the unpickled object. *)
Definition bundle_get (obj : pickled) (key : string)
    : result (option estimator) :=
  match obj with
  | PBundle d => inr (default None (d !! key))
  | PEstimator _ =>
      inl (PyExc "AttributeError" "object has no attribute 'get'")
  end.

(** A method call on a value that may be [None]. *)
Definition call {A B} (method : estimator -> A -> result B)
    (obj : option estimator) (x : A) : result B :=
  match obj with
  | Some m => method m x
  | None => inl (PyExc "AttributeError" "'NoneType' object has no attribute")
  end.

(** [metadata.get(group, {}).get(key, dflt)]. *)
Definition metric (group : option (gmap string Q)) (key : string)
    (dflt : Q) : Q :=
  default dflt (default ∅ group !! key).

(** A request value used as an operand of [*], [-] and [/] with a float:
    an [int] is converted to a float first, which raises when it is too
    large; a value that is not a number raises [TypeError]. *)
Definition operand (v : pyval) : result Q :=
  match v with
  | PyInt z =>
      if Py.fits_double z then inr (inject_Z z) else inl Py.int_too_large
  | _ =>
      match Py.number v with
      | Some a => inr a
      | None => inl (PyExc "TypeError" "unsupported operand type(s)")
      end
  end.

(** [a / b]. *)
Definition truediv (a b : Q) : result Q :=
  if Qeq_bool b 0 then inl (PyExc "ZeroDivisionError" "division by zero")
  else inr (a / b)%Q.

Definition forbidden : exn :=
  HTTPException 403 (Msg "Feature not available in your license").

Definition prediction_error (e : exn) : exn :=
  HTTPException 500 (MsgStr "Prediction error: " e).

(** *** Demand forecasting *)

Record demand_response : Type := {
  d_property_id : option pyval;
  d_room_type : option pyval;
  d_model_version : option string;
  forecast_value : Q;
  d_confidence : Q;
  d_timestamp : Z
}.

Definition predict_demand (request_data : gmap string pyval)
    (license : License.LicenseVerifier) (clk : clock) : M demand_response :=
  if negb (License.can_use_feature license "demand_forecasting" (at_gate clk))
  then raise forbidden
  else
    try_except
      (model_data <- load_model "demand_forecast" (at_load clk) ;;
       model <- lift (subscript (model model_data) "model") ;;
       let md := metadata model_data in
       let features_dict := default (PyDict ∅) (request_data !! "features") in
       let feature_list := default [] (feature_schema md) in
       X <- lift (Py.feature_vector feature_list features_dict) ;;
       prediction <- lift (call predict model X) ;;
       ret {| d_property_id := request_data !! "property_id";
              d_room_type := request_data !! "room_type";
              d_model_version := model_version md;
              forecast_value := prediction;
              d_confidence := metric (evaluation_metrics md) "test_mape" 0.15;
              d_timestamp := at_response clk |})
      (fun e => raise (prediction_error e)).

(** *** Dynamic pricing *)

(** The response, without the [reasoning] text (a formatted copy of a
    request field). *)
Record pricing_response : Type := {
  p_property_id : option pyval;
  p_room_type : option pyval;
  current_price : Q;
  recommended_price : Q;
  price_change_percent : Q;
  p_confidence : Q;
  p_model_version : option string;
  p_timestamp : Z
}.

Definition predict_pricing (request_data : gmap string pyval)
    (license : License.LicenseVerifier) (clk : clock) : M pricing_response :=
  if negb (License.can_use_feature license "dynamic_pricing" (at_gate clk))
  then raise forbidden
  else
    try_except
      (model_data <- load_model "dynamic_pricing" (at_load clk) ;;
       let md := metadata model_data in
       let features_dict := PyDict request_data in
       let current_price := default (PyFloat 150.0) (request_data !! "current_price") in
       let feature_list := default [] (feature_schema md) in
       X <- lift (Py.feature_vector feature_list features_dict) ;;
       raw <- lift (match model model_data with
                    | PEstimator m => predict m X
                    | PBundle _ =>
                        inl (PyExc "AttributeError"
                               "'dict' object has no attribute 'predict'")
                    end) ;;
       c <- lift (operand current_price) ;;
       let recommended_price :=
         PyNum.max (c * 0.8)%Q (PyNum.min (c * 1.3)%Q raw) in
       ratio <- lift (truediv (recommended_price - c)%Q c) ;;
       let price_change_percent := (ratio * 100)%Q in
       ret {| p_property_id := request_data !! "property_id";
              p_room_type := request_data !! "room_type";
              current_price := c;
              recommended_price := PyNum.round recommended_price 2;
              price_change_percent := PyNum.round price_change_percent 2;
              p_confidence := metric (evaluation_metrics md) "test_mape" 0.12;
              p_model_version := model_version md;
              p_timestamp := at_response clk |})
      (fun e => raise (prediction_error e)).

(** *** Fraud detection *)

Record fraud_response : Type := {
  transaction_id : option pyval;
  fraud_probability : Q;
  anomaly_score : Q;
  fraud_flag : bool;
  recommended_action : string;
  reasons : list string;
  f_model_version : option string;
  f_timestamp : Z
}.

Definition predict_fraud (request_data : gmap string pyval)
    (license : License.LicenseVerifier) (clk : clock) : M fraud_response :=
  if negb (License.can_use_feature license "fraud_detection" (at_gate clk))
  then raise forbidden
  else
    try_except
      (model_data <- load_model "fraud_detection" (at_load clk) ;;
       let models := model model_data in
       supervised_model <- lift (bundle_get models "supervised_model") ;;
       isolation_forest <- lift (bundle_get models "isolation_forest") ;;
       let md := metadata model_data in
       let features_dict := PyDict request_data in
       let feature_list := default [] (feature_schema md) in
       X <- lift (Py.feature_vector feature_list features_dict) ;;
       fraud_probability <- lift (match supervised_model with
                                  | Some m => predict_proba m X
                                  | None => inr 0%Q
                                  end) ;;
       anomaly_score <- lift (match isolation_forest with
                              | Some m => rbind (score_samples m X)
                                                (fun s => inr (- s)%Q)
                              | None => inr 0%Q
                              end) ;;
       let fraud_flag :=
         PyNum.gt fraud_probability 0.5
         || PyNum.gt anomaly_score
              (metric (unsupervised_metrics md) "anomaly_threshold" 0.7) in
       ret {| transaction_id := request_data !! "transaction_id";
              fraud_probability := PyNum.round (fraud_probability * 100) 2;
              anomaly_score := PyNum.round anomaly_score 3;
              fraud_flag := fraud_flag;
              recommended_action :=
                if PyNum.gt fraud_probability 0.7 then "block"
                else if fraud_flag then "review" else "accept";
              reasons :=
                if fraud_flag then ["high_amount"; "geo_mismatch"] else [];
              f_model_version := model_version md;
              f_timestamp := at_response clk |})
      (fun e => raise (prediction_error e)).

(** *** Guest churn *)

Record churn_response : Type := {
  guest_id : option pyval;
  churn_probability : Q;
  risk_segment : string;
  recommended_actions : list (string * string);
  c_model_version : option string;
  c_timestamp : Z
}.

Definition predict_churn (request_data : gmap string pyval)
    (license : License.LicenseVerifier) (clk : clock) : M churn_response :=
  if negb (License.can_use_feature license "guest_churn" (at_gate clk))
  then raise forbidden
  else
    try_except
      (model_data <- load_model "guest_churn" (at_load clk) ;;
       let models := model model_data in
       model <- lift (subscript models "model") ;;
       scaler <- lift (subscript models "scaler") ;;
       let md := metadata model_data in
       let features_dict := PyDict request_data in
       let feature_list := default [] (feature_schema md) in
       X <- lift (Py.feature_vector feature_list features_dict) ;;
       X_scaled <- lift (call transform scaler X) ;;
       churn_probability <- lift (call predict_proba model X_scaled) ;;
       let risk_segment :=
         if PyNum.gt churn_probability 0.7 then "high"
         else if PyNum.gt churn_probability 0.4 then "medium"
         else "low" in
       let recommendations :=
         if String.eqb risk_segment "high"
         then [("loyalty_offer", "Offer discount on next stay");
               ("personal_outreach", "Manager to call guest")]
         else if String.eqb risk_segment "medium"
         then [("feedback_request", "Ask for feedback to improve")]
         else [] in
       ret {| guest_id := request_data !! "guest_id";
              churn_probability := PyNum.round (churn_probability * 100) 2;
              risk_segment := risk_segment;
              recommended_actions := recommendations;
              c_model_version := model_version md;
              c_timestamp := at_response clk |})
      (fun e => raise (prediction_error e)).

End Dispatcher.

(** ** The license dependency, health and model management *)

Module Service.

Import Registry.
Local Open Scope py_scope.

(** [verify_license]: [x_license_key] is what
    [request.headers.get('X-License-Key')] gives, [environ_key] is
    [os.environ.get('LICENSE_KEY')]. *)
Definition verify_license (x_license_key : option string)
    (environ_key : option string) (now : Z) : License.LicenseVerifier :=
  License.init x_license_key environ_key now.

(** The answer of [health_check]; [models_loaded] holds the keys of
    [LOADED_MODELS], without the order of the list. *)
Record health : Type := {
  h_status : string;
  h_timestamp : Z;
  models_loaded : gset string
}.

Definition health_check (now : Z) : M health :=
  fun w => (inr {| h_status := "healthy";
                   h_timestamp := now;
                   models_loaded := dom (LOADED_MODELS w) |}, w).

(** The module-level table; a dict keeps the order of its display. *)
Definition FEATURE_GATES : list (string * bool) :=
  [("demand_forecasting", false);
   ("dynamic_pricing", false);
   ("guest_churn", false);
   ("fraud_detection", false);
   ("maintenance_prediction", false)].

(** One entry of [models_info], without the [training_date] (the metadata
    record does not hold it). *)
Record model_info : Type := {
  name : string;
  version : option string;
  available : bool;
  metrics : option (gmap string Q)
}.

Record status_response : Type := {
  license_valid : bool;
  license_expires : option Z;
  models : list model_info;
  s_timestamp : Z
}.

(** The body of the loop of [model_status] for one name; [now] is the
    reading of the clock in [can_use_feature]. *)
Definition status_entry (license : License.LicenseVerifier) (now : Z)
    (model_name : string) : M (option model_info) :=
  has_model <- path_exists (model_path model_name) ;;
  has_metadata <- (if has_model
                   then path_exists (metadata_path model_name)
                   else ret false) ;;
  if has_model && has_metadata
  then
    md <- open_and json_load (metadata_path model_name) ;;
    ret (Some {| name := model_name;
                 version := model_version md;
                 available := License.can_use_feature license model_name now;
                 metrics := evaluation_metrics md |})
  else ret None.

(** The loop over the keys: the entries appended so far come first. *)
Fixpoint status_entries (license : License.LicenseVerifier)
    (now_of : string -> Z) (names : list string) : M (list model_info) :=
  match names with
  | [] => ret []
  | model_name :: rest =>
      entry <- status_entry license (now_of model_name) model_name ;;
      entries <- status_entries license now_of rest ;;
      ret (match entry with
           | Some info => info :: entries
           | None => entries
           end)
  end.

(** [model_status]: [now_of] gives the reading of the clock when the entry
    of a name is built, [now] the one of the response. *)
Definition model_status (license : License.LicenseVerifier)
    (now_of : string -> Z) (now : Z) : M status_response :=
  models_info <- status_entries license now_of (map fst FEATURE_GATES) ;;
  ret {| license_valid := License.is_valid license;
         license_expires := License.expires_at license;
         models := models_info;
         s_timestamp := now |}.

Record update_response : Type := {
  u_status : string;
  updates_available : list string;
  next_check : Z
}.

(** [update_models]; the request body is not read. *)
Definition update_models (license : License.LicenseVerifier) (now : Z)
    : M update_response :=
  if negb (License.is_valid license)
  then raise (HTTPException 403 (Msg "License not valid"))
  else ret {| u_status := "update_check_complete";
              updates_available := [];
              next_check := now + License.timedelta_days 1 |}.

End Service.

(** ** Runs of the service *)

(** One step of the world the cache lives in: a call of [load_model] (every
    handler reaches the cache and the storage only through it), or a change
    of the files on disk made from outside. *)
Inductive step : Registry.world -> Registry.world -> Prop :=
| step_load_model (model_name : string) (now : Z) (w w' : Registry.world)
    (r : result Registry.artifact) :
    Registry.load_model model_name now w = (r, w') -> step w w'
| step_disk (w : Registry.world) (fs : gmap string Registry.file) :
    step w {| Registry.LOADED_MODELS := Registry.LOADED_MODELS w;
              Registry.files := fs;
              Registry.io_log := Registry.io_log w;
              Registry.next_oid := Registry.next_oid w |}.

(** Callers served one after the other, each asking for [model_name] at its
    own time: the answers in order, and the final state. *)
Fixpoint serve (model_name : string) (times : list Z) (w : Registry.world)
    : list (result Registry.artifact) * Registry.world :=
  match times with
  | [] => ([], w)
  | t :: times' =>
      let (r, w1) := Registry.load_model model_name t w in
      let (rs, w2) := serve model_name times' w1 in
      (r :: rs, w2)
  end.

(** A load attempt shows in the log as the existence test of the pickle,
    which [load_model] makes once, first, each time the name is not cached,
    whether the load then succeeds or fails: the number of such tests logged
    for a name so far.  In a run of [serve] nothing but [load_model] reads
    the storage. *)
Definition is_load_attempt (model_name : string) (ev : Registry.io_event)
    : bool :=
  match ev with
  | Registry.Exists path => String.eqb path (Registry.model_path model_name)
  | Registry.Open _ => false
  end.

Definition load_attempts (model_name : string) (w : Registry.world) : nat :=
  length (List.filter (is_load_attempt model_name) (Registry.io_log w)).

(** ** Notions used in the statements about the model status *)

(** What the loop leaves alone. *)
Definition same_but_log (w w' : Registry.world) : Prop :=
  Registry.LOADED_MODELS w' = Registry.LOADED_MODELS w
  /\ Registry.files w' = Registry.files w
  /\ Registry.next_oid w' = Registry.next_oid w
  /\ exists evs, Registry.io_log w' = (Registry.io_log w ++ evs)%list.

(** The entry the loop builds for a name, read off the files. *)
Definition entry_for (license : License.LicenseVerifier)
    (now_of : string -> Z) (fs : gmap string Registry.file) (info : Service.model_info)
    : Prop :=
  exists f g md,
    fs !! Registry.model_path (Service.name info) = Some f
    /\ fs !! Registry.metadata_path (Service.name info) = Some g
    /\ Registry.json_load g = inr md
    /\ Service.version info = Registry.model_version md
    /\ Service.metrics info = Registry.evaluation_metrics md
    /\ Service.available info
       = License.can_use_feature license (Service.name info) (now_of (Service.name info)).

(** ** The error kinds of the specification *)

Inductive error_kind : Type :=
| Forbidden
| NotFound
| LoadError
| InternalError.

(** How a caller tells the kinds apart in what the service raises: by the
    status code, and for status 500 by the text the detail starts with. *)
Definition kind_of (e : exn) : option error_kind :=
  match e with
  | HTTPException 403 _ => Some Forbidden
  | HTTPException 404 _ => Some NotFound
  | HTTPException 500 (MsgStr prefix _) =>
      if String.eqb prefix "Error loading model: " then Some LoadError
      else if String.eqb prefix "Prediction error: " then Some InternalError
      else None
  | _ => None
  end.


(** The anomaly threshold an artifact stores in its metadata, 0.7 when it
    stores none. *)
Definition stored_anomaly_threshold (md : Registry.Metadata) : Q :=
  match Registry.unsupervised_metrics md with
  | Some um => default 0.7%Q (um !! "anomaly_threshold")
  | None => 0.7%Q
  end.

(** ** Sample data *)

Module Sample.

Import Registry.

Definition license : License.LicenseVerifier :=
  License.init (Some "HOTEL-0123456789-ABCDEF") None 0.

Definition clk : Dispatcher.clock :=
  {| Dispatcher.at_gate := 10; Dispatcher.at_load := 11;
     Dispatcher.at_response := 12 |}.

Definition no_method {A B} (name : string) (_ : A) : result B :=
  inl (PyExc "AttributeError" name).

(** A regressor that answers [v] on every row. *)
Definition regressor (v : Q) : estimator :=
  {| predict := fun _ => inr v;
     predict_proba := no_method "predict_proba";
     score_samples := no_method "score_samples";
     transform := no_method "transform" |}.

(** A classifier whose positive-class probability is [p] on every row. *)
Definition classifier (p : Q) : estimator :=
  {| predict := fun _ => inr (if PyNum.gt p 0.5 then 1 else 0)%Q;
     predict_proba := fun _ => inr p;
     score_samples := no_method "score_samples";
     transform := no_method "transform" |}.

(** An outlier detector whose sample score is [s] on every row. *)
Definition detector (s : Q) : estimator :=
  {| predict := no_method "predict";
     predict_proba := no_method "predict_proba";
     score_samples := fun _ => inr s;
     transform := no_method "transform" |}.

Definition scaler : estimator :=
  {| predict := no_method "predict";
     predict_proba := no_method "predict_proba";
     score_samples := no_method "score_samples";
     transform := fun X => inr X |}.

Definition pkl_file (obj : pickled) : file :=
  {| pickle_load := inr obj;
     json_load := inl (PyExc "JSONDecodeError" "Expecting value") |}.

Definition json_file (md : Metadata) : file :=
  {| pickle_load := inl (PyExc "UnpicklingError" "invalid load key");
     json_load := inr md |}.

Definition corrupt_file : file :=
  {| pickle_load := inl (PyExc "UnpicklingError" "pickle data was truncated");
     json_load := inl (PyExc "JSONDecodeError" "Expecting value") |}.

Definition md (schema : list string) (threshold : option Q) : Metadata :=
  {| feature_schema := Some schema;
     model_version := Some "20240101_000000";
     evaluation_metrics := Some {[ "test_mape" := 0.1%Q ]};
     unsupervised_metrics :=
       match threshold with
       | Some t => Some {[ "anomaly_threshold" := t ]}
       | None => None
       end |}.

(** A freshly started service whose models directory holds the two files of
    the model [name]. *)
Definition installed (name : string) (obj : pickled) (m : Metadata) : world :=
  {| LOADED_MODELS := ∅;
     files := <[model_path name := pkl_file obj]>
                {[ metadata_path name := json_file m ]};
     io_log := [];
     next_oid := 0 |}.

(** A freshly started service with an empty models directory. *)
Definition empty_world : world :=
  {| LOADED_MODELS := ∅; files := ∅; io_log := []; next_oid := 0 |}.

(** A freshly started service where the pickle of [name] is damaged. *)
Definition damaged (name : string) : world :=
  {| LOADED_MODELS := ∅;
     files := {[ model_path name := corrupt_file ]};
     io_log := [];
     next_oid := 0 |}.

(** The pricing model installed, answering [raw] on every row. *)
Definition pricing_world (raw : Q) : world :=
  installed "dynamic_pricing" (PEstimator (regressor raw))
    (md ["occupancy_rate"; "competitor_prices_avg"] None).

Definition pricing_request : gmap string pyval :=
  <["current_price" := PyInt 100]> {[ "occupancy_rate" := PyFloat 0.65 ]}.

(** The fraud models installed: supervised probability [p], sample score
    [s], stored threshold [t]. *)
Definition fraud_world (p s t : Q) : world :=
  installed "fraud_detection"
    (PBundle (<["supervised_model" := Some (classifier p)]>
                (<["isolation_forest" := Some (detector s)]>
                   {[ "scaler" := Some scaler ]})))
    (md ["amount"] (Some t)).

Definition fraud_request : gmap string pyval :=
  <["transaction_id" := PyStr "txn_123" None]> {[ "amount" := PyFloat 250 ]}.

(** The churn model installed, with churn probability [q]. *)
Definition churn_world (q : Q) : world :=
  installed "guest_churn"
    (PBundle (<["model" := Some (classifier q)]> {[ "scaler" := Some scaler ]}))
    (md ["feedback_score"] None).

Definition churn_request : gmap string pyval :=
  <["guest_id" := PyStr "guest_123" None]> {[ "feedback_score" := PyInt 7 ]}.

(** The object a first call of [load_model] at time 11 builds. *)
Definition first_loaded (obj : pickled) (m : Metadata) : artifact :=
  {| oid := 0; model := obj; metadata := m; loaded_at := 11 |}.

End Sample.

(** * Properties *)

(** ** The license gate *)

Section LicenseFacts.

Import License.

Lemma init_cases key environ_key t0 :
  init key environ_key t0 =
    match py_or key environ_key with
    | Some k =>
        if negb (String.eqb k "") && (20 <? Z.of_nat (String.length k))%Z
        then {| license_key := Some k; is_valid := true;
                expires_at := Some (t0 + timedelta_days 30);
                features := granted_features |}
        else {| license_key := Some k; is_valid := false;
                expires_at := None; features := ∅ |}
    | None => {| license_key := None; is_valid := false;
                 expires_at := None; features := ∅ |}
    end.
Proof.
  unfold init, verify; cbn [license_key].
  destruct (py_or key environ_key) as [k|]; cbn [truthy]; [|reflexivity].
  destruct (negb (String.eqb k "")); cbn [andb]; [|reflexivity].
  destruct (20 <? Z.of_nat (String.length k))%Z; reflexivity.
Qed.

Lemma init_valid_inv key environ_key t0 :
  is_valid (init key environ_key t0) = true ->
  expires_at (init key environ_key t0) = Some (t0 + timedelta_days 30)
  /\ features (init key environ_key t0) = granted_features.
Proof.
  rewrite init_cases.
  destruct (py_or key environ_key) as [k|]; [|discriminate].
  destruct (negb (String.eqb k "") && (20 <? Z.of_nat (String.length k))%Z);
    cbn; [auto | discriminate].
Qed.

(** C4, as amended: a valid grant made at [t0] expires at [t0] plus thirty
    days; for an entitled feature [can_use_feature] called at [now] answers
    true as long as [now] is not later than the expiry (the expiry instant
    included) and false once [now] is later.  The answer depends on the
    time of the call, not on the time of verification. *)
Theorem can_use_feature_until_expiry key environ_key t0 feature now :
  is_valid (init key environ_key t0) = true ->
  features (init key environ_key t0) !! feature = Some true ->
  expires_at (init key environ_key t0) = Some (t0 + timedelta_days 30)
  /\ (now <= t0 + timedelta_days 30 ->
      can_use_feature (init key environ_key t0) feature now = true)
  /\ (t0 + timedelta_days 30 < now ->
      can_use_feature (init key environ_key t0) feature now = false).
Proof.
  intros Hvalid Hfeat.
  destruct (init_valid_inv _ _ _ Hvalid) as [Hexp _].
  split; [exact Hexp|].
  unfold can_use_feature. rewrite Hvalid, Hexp, Hfeat. cbn.
  split; intros Hnow.
  - destruct (Z.ltb_spec (t0 + timedelta_days 30) now); [lia | reflexivity].
  - destruct (Z.ltb_spec (t0 + timedelta_days 30) now); [reflexivity | lia].
Qed.

(** C5, as amended: a non-empty key of at most 20 characters, and a missing
    or empty key when the environment gives no key or one of at most 20
    characters, yields an instance that is not valid, has no expiry and no
    feature, and for which [can_use_feature] is false for every feature at
    every time. *)
Theorem short_key_grants_nothing key environ_key t0 :
  (exists k, key = Some k /\ k <> "" /\ (String.length k <= 20)%nat)
  \/ (truthy key = false
      /\ match environ_key with
         | Some k => (String.length k <= 20)%nat
         | None => True
         end) ->
  is_valid (init key environ_key t0) = false
  /\ expires_at (init key environ_key t0) = None
  /\ features (init key environ_key t0) = ∅
  /\ forall feature now,
       can_use_feature (init key environ_key t0) feature now = false.
Proof.
  intros H.
  assert (Hk : match py_or key environ_key with
               | Some k => (String.length k <= 20)%nat
               | None => True
               end).
  { destruct H as [(k & -> & Hne & Hlen) | [Hf Henv]].
    - unfold py_or, truthy.
      destruct (String.eqb_spec k ""); [contradiction | exact Hlen].
    - unfold py_or. rewrite Hf. exact Henv. }
  rewrite init_cases.
  destruct (py_or key environ_key) as [k|].
  - destruct (Z.ltb_spec 20 (Z.of_nat (String.length k))); [lia|].
    rewrite andb_false_r. cbn. auto.
  - cbn. auto.
Qed.

End LicenseFacts.

Lemma can_use_feature_until_expiry_witness :
  License.expires_at (License.init (Some "HOTEL-0123456789-ABCDEF") None 1000)
    = Some (1000 + License.timedelta_days 30)
  /\ (5000 <= 1000 + License.timedelta_days 30 ->
      License.can_use_feature
        (License.init (Some "HOTEL-0123456789-ABCDEF") None 1000)
        "dynamic_pricing" 5000 = true)
  /\ (1000 + License.timedelta_days 30 < 5000 ->
      License.can_use_feature
        (License.init (Some "HOTEL-0123456789-ABCDEF") None 1000)
        "dynamic_pricing" 5000 = false).
Proof.
  apply (can_use_feature_until_expiry
           (Some "HOTEL-0123456789-ABCDEF") None 1000 "dynamic_pricing" 5000).
  - vm_compute. reflexivity.
  - vm_compute. reflexivity.
Defined.

(** C4 fails as stated at the expiry instant itself: a key verified at time 0
    still unlocks the feature when the clock reads exactly [expires_at]. *)
Lemma can_use_feature_at_expiry_instant :
  License.expires_at (License.init (Some "HOTEL-0123456789-ABCDEF") None 0)
    = Some 2592000000000
  /\ License.can_use_feature
       (License.init (Some "HOTEL-0123456789-ABCDEF") None 0)
       "dynamic_pricing" 2592000000000 = true.
Proof. split; vm_compute; reflexivity. Qed.

Lemma short_key_grants_nothing_witness :
  License.is_valid (License.init (Some "short-key") None 0) = false
  /\ License.expires_at (License.init (Some "short-key") None 0) = None
  /\ License.features (License.init (Some "short-key") None 0) = ∅
  /\ forall feature now,
       License.can_use_feature (License.init (Some "short-key") None 0)
         feature now = false.
Proof.
  apply (short_key_grants_nothing (Some "short-key") None 0).
  left. exists "short-key". split; [reflexivity|]. split; [discriminate|].
  simpl. lia.
Defined.

(** C5 fails as stated for an absent key: the constructor falls back on the
    [LICENSE_KEY] environment variable, and a long value there gives a valid
    instance that unlocks the features. *)
Lemma absent_key_falls_back_on_environment :
  License.is_valid
    (License.init None (Some "ENVIRONMENT-KEY-0123456789") 0) = true
  /\ License.can_use_feature
       (License.init None (Some "ENVIRONMENT-KEY-0123456789") 0)
       "fraud_detection" 1 = true.
Proof. split; vm_compute; reflexivity. Qed.

(** ** The feature vector *)

Section FeatureVector.

Lemma rmap_total {A B} (g : A -> B) (l : list A) :
  rmap (fun x => inr (g x)) l = (inr (map g l) : result (list B)).
Proof.
  induction l as [|x l IH]; [reflexivity|].
  cbn [rmap rbind map]. rewrite IH. reflexivity.
Qed.



(** On a dict the list comprehension never raises: the vector is the
    element-wise conversion of the looked-up values. *)
Lemma feature_vector_dict (S : list string) (P : gmap string pyval) :
  Py.feature_vector S (PyDict P)
  = rmap Py.np_float32 (map (fun f => default (PyInt 0) (P !! f)) S).
Proof.
  unfold Py.feature_vector, Py.get. rewrite rmap_total. reflexivity.
Qed.








End FeatureVector.


(** ** The model cache *)

Section RegistryFacts.

Import Registry.

Lemma load_model_hit (model_name : string) (now : Z) (w : world) (a : artifact) :
  LOADED_MODELS w !! model_name = Some a ->
  load_model model_name now w = (inr a, w).
Proof.
  intros H. unfold load_model, bind, cached, ret. rewrite H. reflexivity.
Qed.

(** What a call does when the name is not cached, path by path. *)
Lemma load_model_miss (model_name : string) (now : Z) (w : world) :
  LOADED_MODELS w !! model_name = None ->
  load_model model_name now w =
    let w1 := record_io (Exists (model_path model_name)) w in
    match files w !! model_path model_name with
    | None =>
        (inl (HTTPException 404 (Msg ("Model " ++ model_name ++ " not found"))),
         w1)
    | Some f =>
        let w2 := record_io (Open (model_path model_name)) w1 in
        match pickle_load f with
        | inl e => (inl (HTTPException 500 (MsgStr "Error loading model: " e)), w2)
        | inr obj =>
            let w3 := record_io (Open (metadata_path model_name)) w2 in
            match match files w !! metadata_path model_name with
                  | Some g => json_load g
                  | None => inl (PyExc "FileNotFoundError"
                                   (metadata_path model_name))
                  end with
            | inl e =>
                (inl (HTTPException 500 (MsgStr "Error loading model: " e)), w3)
            | inr md =>
                let a := {| oid := next_oid w; model := obj;
                            metadata := md; loaded_at := now |} in
                (inr a,
                 {| LOADED_MODELS := <[model_name := a]> (LOADED_MODELS w);
                    files := files w;
                    io_log := io_log w3;
                    next_oid := S (next_oid w) |})
            end
        end
    end.
Proof.
  intros H.
  unfold load_model, bind, cached, ret, raise, try_except, path_exists,
    open_and, new_result, store.
  rewrite H. cbn.
  destruct (files w !! model_path model_name) as [f|] eqn:Hf; cbn;
    [|reflexivity].
  rewrite ?Hf.
  destruct (pickle_load f) as [e|obj]; [reflexivity|].
  destruct (files w !! metadata_path model_name) as [g|]; [|reflexivity].
  destruct (json_load g) as [e|md]; reflexivity.
Qed.

(** A call never touches the files, keeps the log as a prefix and keeps every
    entry the cache already has. *)
Lemma load_model_frame (model_name : string) (now : Z) (w w' : world)
    (r : result artifact) :
  load_model model_name now w = (r, w') ->
  files w' = files w
  /\ (exists evs, io_log w' = (io_log w ++ evs)%list)
  /\ (forall n a, LOADED_MODELS w !! n = Some a ->
        LOADED_MODELS w' !! n = Some a).
Proof.
  destruct (LOADED_MODELS w !! model_name) as [a0|] eqn:Hc.
  - rewrite (load_model_hit _ _ _ _ Hc). intros [= <- <-].
    split; [reflexivity|]. split; [exists []; symmetry; apply app_nil_r|auto].
  - rewrite (load_model_miss _ _ _ Hc). cbn zeta.
    destruct (files w !! model_path model_name) as [f|].
    2:{ intros [= <- <-]. cbn. eauto. }
    destruct (pickle_load f) as [e|obj].
    { intros [= <- <-]. cbn. rewrite <- app_assoc. eauto. }
    destruct (match files w !! metadata_path model_name with
              | Some g => json_load g
              | None => _
              end) as [e|md].
    { intros [= <- <-]. cbn. rewrite <- !app_assoc. eauto. }
    intros [= <- <-]. cbn. rewrite <- !app_assoc.
    split; [reflexivity|]. split; [eauto|].
    intros n a Hn. rewrite lookup_insert_ne; [exact Hn|].
    intros ->. congruence.
Qed.

(** A successful call leaves the returned object in the cache under the
    requested name. *)
Lemma load_model_caches (model_name : string) (now : Z) (w w' : world)
    (a : artifact) :
  load_model model_name now w = (inr a, w') ->
  LOADED_MODELS w' !! model_name = Some a.
Proof.
  destruct (LOADED_MODELS w !! model_name) as [a0|] eqn:Hc.
  - rewrite (load_model_hit _ _ _ _ Hc). intros [= <- <-]. exact Hc.
  - rewrite (load_model_miss _ _ _ Hc). cbn zeta.
    destruct (files w !! model_path model_name) as [f|]; [|discriminate].
    destruct (pickle_load f) as [e|obj]; [discriminate|].
    destruct (match files w !! metadata_path model_name with
              | Some g => json_load g
              | None => _
              end) as [e|md]; [discriminate|].
    intros [= <- <-]. cbn. apply lookup_insert_eq.
Qed.

Lemma step_keeps_cached (w w' : world) (n : string) (a : artifact) :
  step w w' ->
  LOADED_MODELS w !! n = Some a -> LOADED_MODELS w' !! n = Some a.
Proof.
  intros Hstep. destruct Hstep as [m t w w' r Hload | w fs].
  - apply (load_model_frame _ _ _ _ _ Hload).
  - cbn. auto.
Qed.

Lemma steps_keep_cached (w w' : world) (n : string) (a : artifact) :
  rtc step w w' ->
  LOADED_MODELS w !! n = Some a -> LOADED_MODELS w' !! n = Some a.
Proof.
  induction 1 as [|w w1 w2 Hstep _ IH]; [auto|].
  intros H. apply IH. eapply step_keeps_cached; eauto.
Qed.

(** C9: once a call for a name has succeeded, every later call for the same
    name, after any number of other calls and of changes to the files on
    disk, returns that same object (same identity, same contents) and leaves
    the whole state as it found it: no storage access is logged and no new
    object is made. *)
Theorem load_model_cached (model_name : string) (now now' : Z)
    (w w1 w2 : world) (a : artifact) :
  load_model model_name now w = (inr a, w1) ->
  rtc step w1 w2 ->
  load_model model_name now' w2 = (inr a, w2).
Proof.
  intros Hload Hsteps.
  apply load_model_hit.
  eapply steps_keep_cached; [exact Hsteps|].
  eapply load_model_caches; exact Hload.
Qed.

(** C10: a call that raises leaves the cache exactly as it was, with no
    entry under the requested name, and the files untouched; the next call
    for that name goes to the storage again, starting with the existence
    test of the pickle.  Whatever the outcome, a call changes the cache only
    by inserting, under the requested name, the object it returns. *)
Theorem load_model_failure_not_cached (model_name : string) (now : Z)
    (w w' : world) (e : exn) :
  load_model model_name now w = (inl e, w') ->
  LOADED_MODELS w' = LOADED_MODELS w
  /\ LOADED_MODELS w' !! model_name = None
  /\ files w' = files w
  /\ (forall now', exists r w'' evs,
        load_model model_name now' w' = (r, w'')
        /\ io_log w'' = (io_log w' ++ Exists (model_path model_name) :: evs)%list)
  /\ (forall n t r v v',
        load_model n t v = (r, v') ->
        LOADED_MODELS v' = LOADED_MODELS v
        \/ exists a, r = inr a /\ LOADED_MODELS v' = <[n := a]> (LOADED_MODELS v)).
Proof.
  intros Hload.
  assert (Hgen : forall n t r v v',
            load_model n t v = (r, v') ->
            LOADED_MODELS v' = LOADED_MODELS v
            \/ exists a, r = inr a
                         /\ LOADED_MODELS v' = <[n := a]> (LOADED_MODELS v)).
  { intros n t r v v'.
    destruct (LOADED_MODELS v !! n) as [a0|] eqn:Hc.
    - rewrite (load_model_hit _ _ _ _ Hc). intros [= <- <-]. auto.
    - rewrite (load_model_miss _ _ _ Hc). cbn zeta.
      destruct (files v !! model_path n) as [f|];
        [|intros [= <- <-]; auto].
      destruct (pickle_load f) as [e0|obj]; [intros [= <- <-]; auto|].
      destruct (match files v !! metadata_path n with
                | Some g => json_load g
                | None => _
                end) as [e0|md]; [intros [= <- <-]; auto|].
      intros [= <- <-]. right. eauto. }
  assert (Hc : LOADED_MODELS w !! model_name = None).
  { destruct (LOADED_MODELS w !! model_name) as [a0|] eqn:Hc; [|reflexivity].
    rewrite (load_model_hit _ _ _ _ Hc) in Hload. discriminate. }
  assert (Hsame : LOADED_MODELS w' = LOADED_MODELS w).
  { destruct (Hgen _ _ _ _ _ Hload) as [H | (a & [=] & _)]. exact H. }
  assert (Hc' : LOADED_MODELS w' !! model_name = None) by (rewrite Hsame; exact Hc).
  split; [exact Hsame|]. split; [exact Hc'|].
  split; [apply (load_model_frame _ _ _ _ _ Hload)|].
  split; [|exact Hgen].
  intros now'. rewrite (load_model_miss _ _ _ Hc'). cbn zeta.
  destruct (files w' !! model_path model_name) as [f|].
  2:{ do 2 eexists. exists []. split; reflexivity. }
  destruct (pickle_load f) as [e0|obj].
  { do 3 eexists. split; [reflexivity|]. cbn. rewrite <- app_assoc. reflexivity. }
  destruct (match files w' !! metadata_path model_name with
            | Some g => json_load g
            | None => _
            end) as [e0|md].
  { do 3 eexists. split; [reflexivity|]. cbn. rewrite <- !app_assoc. reflexivity. }
  do 3 eexists. split; [reflexivity|]. cbn. rewrite <- !app_assoc. reflexivity.
Qed.

End RegistryFacts.

(** ** Numbers *)

Section NumberFacts.

Lemma gt_true (a b : Q) : PyNum.gt a b = true <-> (b < a)%Q.
Proof.
  unfold PyNum.gt. rewrite negb_true_iff, <- not_true_iff_false, Qle_bool_iff.
  split; [apply Qnot_le_lt | apply Qlt_not_le].
Qed.

Lemma gt_false (a b : Q) : PyNum.gt a b = false <-> (a <= b)%Q.
Proof. unfold PyNum.gt. rewrite negb_false_iff. apply Qle_bool_iff. Qed.





#[global] Instance round_half_even_proper :
  Proper (Qeq ==> eq) PyNum.round_half_even.
Proof.
  intros x y Hxy. unfold PyNum.round_half_even.
  rewrite (Qfloor_comp _ _ Hxy).
  assert (H : (x - inject_Z (Qfloor y) ?= 1 # 2)%Q
              = (y - inject_Z (Qfloor y) ?= 1 # 2)%Q)
    by (rewrite Hxy; reflexivity).
  rewrite H. reflexivity.
Qed.

#[global] Instance round_proper : Proper (Qeq ==> eq ==> Qeq) PyNum.round.
Proof.
  intros x y Hxy n ? <-. unfold PyNum.round.
  assert (H : (x * inject_Z (10 ^ Z.of_nat n) == y * inject_Z (10 ^ Z.of_nat n))%Q)
    by (rewrite Hxy; reflexivity).
  rewrite (round_half_even_proper _ _ H). reflexivity.
Qed.

End NumberFacts.

(** ** The handlers *)

Section DispatcherFacts.

Import Registry Dispatcher.

(** The shape all four handlers share, once the gate is passed: a failure of
    [load_model] is caught by the handler's own [except] clause. *)
Lemma try_load_failure {A} (name : string) (now : Z) (k : artifact -> M A)
    (w w' : world) (e : exn) :
  load_model name now w = (inl e, w') ->
  try_except (bind (load_model name now) k)
             (fun e => raise (prediction_error e)) w
  = (inl (prediction_error e), w').
Proof. intros H. unfold try_except, bind, raise. rewrite H. reflexivity. Qed.

Lemma try_load_success {A} (name : string) (now : Z) (k : artifact -> M A)
    (w w' : world) (a : artifact) :
  load_model name now w = (inr a, w') ->
  try_except (bind (load_model name now) k)
             (fun e => raise (prediction_error e)) w
  = try_except (k a) (fun e => raise (prediction_error e)) w'.
Proof. intros H. unfold try_except, bind. rewrite H. reflexivity. Qed.

(** C2, as the code behaves: in each of the four handlers a failure raised
    by [load_model], the 404 of a missing pickle as well as the 500 of a
    failed load, is caught by the handler and raised again as a 500
    "Prediction error", the kind the handler also uses for failures of the
    scoring and post-processing. *)
Theorem registry_failure_surfaces_as_500 (request_data : gmap string pyval)
    (license : License.LicenseVerifier) (clk : clock) (w w' : world) (e : exn) :
  (License.can_use_feature license "demand_forecasting" (at_gate clk) = true ->
   load_model "demand_forecast" (at_load clk) w = (inl e, w') ->
   predict_demand request_data license clk w = (inl (prediction_error e), w'))
  /\ (License.can_use_feature license "dynamic_pricing" (at_gate clk) = true ->
      load_model "dynamic_pricing" (at_load clk) w = (inl e, w') ->
      predict_pricing request_data license clk w = (inl (prediction_error e), w'))
  /\ (License.can_use_feature license "fraud_detection" (at_gate clk) = true ->
      load_model "fraud_detection" (at_load clk) w = (inl e, w') ->
      predict_fraud request_data license clk w = (inl (prediction_error e), w'))
  /\ (License.can_use_feature license "guest_churn" (at_gate clk) = true ->
      load_model "guest_churn" (at_load clk) w = (inl e, w') ->
      predict_churn request_data license clk w = (inl (prediction_error e), w'))
  /\ kind_of (prediction_error e) = Some InternalError.
Proof.
  repeat split.
  - intros Hgate Hload. unfold predict_demand. rewrite Hgate. cbn [negb].
    apply try_load_failure. exact Hload.
  - intros Hgate Hload. unfold predict_pricing. rewrite Hgate. cbn [negb].
    apply try_load_failure. exact Hload.
  - intros Hgate Hload. unfold predict_fraud. rewrite Hgate. cbn [negb].
    apply try_load_failure. exact Hload.
  - intros Hgate Hload. unfold predict_churn. rewrite Hgate. cbn [negb].
    apply try_load_failure. exact Hload.
Qed.

End DispatcherFacts.

Lemma registry_failure_surfaces_as_500_witness :
  Dispatcher.predict_demand ∅ Sample.license Sample.clk Sample.empty_world
  = (inl (HTTPException 500
            (MsgStr "Prediction error: "
               (HTTPException 404 (Msg "Model demand_forecast not found")))),
     Registry.record_io (Registry.Exists "models/demand_forecast.pkl")
       Sample.empty_world)
  /\ Dispatcher.predict_demand ∅ Sample.license Sample.clk
       (Sample.damaged "demand_forecast")
     = (inl (HTTPException 500
               (MsgStr "Prediction error: "
                  (HTTPException 500
                     (MsgStr "Error loading model: "
                        (PyExc "UnpicklingError" "pickle data was truncated"))))),
        Registry.record_io (Registry.Open "models/demand_forecast.pkl")
          (Registry.record_io (Registry.Exists "models/demand_forecast.pkl")
             (Sample.damaged "demand_forecast"))).
Proof.
  split.
  - apply (proj1 (registry_failure_surfaces_as_500 ∅ Sample.license Sample.clk
                    Sample.empty_world _ _)).
    + vm_compute. reflexivity.
    + vm_compute. reflexivity.
  - apply (proj1 (registry_failure_surfaces_as_500 ∅ Sample.license Sample.clk
                    (Sample.damaged "demand_forecast") _ _)).
    + vm_compute. reflexivity.
    + vm_compute. reflexivity.
Defined.

Section PostProcessing.

Import Registry Dispatcher.




End PostProcessing.



Section FraudAndChurn.

Import Registry Dispatcher.

(** C7: with [p] the supervised probability (0 when the bundle has no
    supervised model) and [a] the negated sample score of the anomaly model
    (0 when there is none), the handler returns a response whose
    [fraud_flag] is [p > 0.5 or a > threshold], the threshold being the
    [anomaly_threshold] stored in the metadata or 0.7 when none is stored,
    and whose [recommended_action] is "block" when [p > 0.7], else "review"
    when the flag is set, else "accept". *)
Theorem fraud_flag_and_action (request_data : gmap string pyval)
    (license : License.LicenseVerifier) (clk : clock) (w w1 : world)
    (art : artifact) (d : gmap string (option estimator))
    (X : list npfloat) (p a : Q) :
  License.can_use_feature license "fraud_detection" (at_gate clk) = true ->
  load_model "fraud_detection" (at_load clk) w = (inr art, w1) ->
  model art = PBundle d ->
  Py.feature_vector (default [] (feature_schema (metadata art)))
    (PyDict request_data) = inr X ->
  match d !! "supervised_model" with
  | Some (Some m) => predict_proba m X = inr p
  | _ => p = 0%Q
  end ->
  match d !! "isolation_forest" with
  | Some (Some m) => exists s, score_samples m X = inr s /\ a = (- s)%Q
  | _ => a = 0%Q
  end ->
  exists resp,
    predict_fraud request_data license clk w = (inr resp, w1)
    /\ (fraud_flag resp = true <->
        (0.5 < p)%Q \/ (stored_anomaly_threshold (metadata art) < a)%Q)
    /\ ((0.7 < p)%Q -> recommended_action resp = "block")
    /\ ((p <= 0.7)%Q -> fraud_flag resp = true ->
        recommended_action resp = "review")
    /\ ((p <= 0.7)%Q -> fraud_flag resp = false ->
        recommended_action resp = "accept").
Proof.
  intros Hgate Hload Hmodel HX Hp Ha.
  unfold predict_fraud. rewrite Hgate. cbn [negb].
  rewrite (try_load_success _ _ _ _ _ _ Hload).
  unfold try_except, bind, lift, ret, bundle_get.
  rewrite Hmodel, HX.
  assert (Hp' : match default None (d !! "supervised_model") with
                | Some m => predict_proba m X
                | None => inr 0%Q
                end = inr p).
  { destruct (d !! "supervised_model") as [[m|]|]; cbn; congruence. }
  assert (Ha' : match default None (d !! "isolation_forest") with
                | Some m => rbind (score_samples m X) (fun s => inr (- s)%Q)
                | None => inr 0%Q
                end = inr a).
  { destruct (d !! "isolation_forest") as [[m|]|]; cbn; try congruence.
    destruct Ha as (s & -> & ->). reflexivity. }
  rewrite Hp', Ha'.
  eexists. split; [reflexivity|].
  cbn [fraud_flag recommended_action].
  split; [|split; [|split]].
  - unfold metric, stored_anomaly_threshold.
    rewrite orb_true_iff, !gt_true.
    destruct (unsupervised_metrics (metadata art)) as [um|]; cbn.
    + reflexivity.
    + rewrite lookup_empty. reflexivity.
  - intros H. apply gt_true in H. rewrite H. reflexivity.
  - intros H Hflag. apply gt_false in H. rewrite H, Hflag. reflexivity.
  - intros H Hflag. apply gt_false in H. rewrite H, Hflag. reflexivity.
Qed.

(** C8: with [q] the churn probability the model gives, the handler returns
    a response whose [risk_segment] is "high" when [q > 0.7], "medium" when
    [0.4 < q <= 0.7] and "low" otherwise, with the two actions loyalty offer
    and personal outreach for "high", the single action feedback request for
    "medium" and no action for "low". *)
Theorem churn_segment_and_actions (request_data : gmap string pyval)
    (license : License.LicenseVerifier) (clk : clock) (w w1 : world)
    (art : artifact) (d : gmap string (option estimator))
    (m sc : estimator) (X Xs : list npfloat) (q : Q) :
  License.can_use_feature license "guest_churn" (at_gate clk) = true ->
  load_model "guest_churn" (at_load clk) w = (inr art, w1) ->
  model art = PBundle d ->
  d !! "model" = Some (Some m) ->
  d !! "scaler" = Some (Some sc) ->
  Py.feature_vector (default [] (feature_schema (metadata art)))
    (PyDict request_data) = inr X ->
  transform sc X = inr Xs ->
  predict_proba m Xs = inr q ->
  exists resp,
    predict_churn request_data license clk w = (inr resp, w1)
    /\ ((0.7 < q)%Q ->
        risk_segment resp = "high"
        /\ recommended_actions resp
           = [("loyalty_offer", "Offer discount on next stay");
              ("personal_outreach", "Manager to call guest")])
    /\ ((0.4 < q)%Q -> (q <= 0.7)%Q ->
        risk_segment resp = "medium"
        /\ recommended_actions resp
           = [("feedback_request", "Ask for feedback to improve")])
    /\ ((q <= 0.4)%Q ->
        risk_segment resp = "low" /\ recommended_actions resp = []).
Proof.
  intros Hgate Hload Hmodel Hm Hsc HX HXs Hq.
  unfold predict_churn. rewrite Hgate. cbn [negb].
  rewrite (try_load_success _ _ _ _ _ _ Hload).
  unfold try_except, bind, lift, ret, subscript, call.
  rewrite Hmodel, Hm, Hsc, HX, HXs, Hq.
  eexists. split; [reflexivity|].
  cbn [risk_segment recommended_actions].
  split; [|split].
  - intros H. apply gt_true in H. rewrite H. split; reflexivity.
  - intros Hlo Hhi. apply gt_true in Hlo. apply gt_false in Hhi.
    rewrite Hhi, Hlo. split; reflexivity.
  - intros H.
    assert (Hhi : (q <= 0.7)%Q).
    { eapply Qle_trans; [exact H|]. unfold Qle; cbn; lia. }
    apply gt_false in H. apply gt_false in Hhi.
    rewrite Hhi, H. split; reflexivity.
Qed.

End FraudAndChurn.

Lemma fraud_flag_and_action_witness :
  exists resp w1,
    Dispatcher.predict_fraud Sample.fraud_request Sample.license Sample.clk
      (Sample.fraud_world 0.6 (-0.9) 0.75) = (inr resp, w1)
    /\ Dispatcher.fraud_flag resp = true
    /\ Dispatcher.recommended_action resp = "review".
Proof.
  destruct (fraud_flag_and_action
              Sample.fraud_request Sample.license Sample.clk
              (Sample.fraud_world 0.6 (-0.9) 0.75)
              (snd (Registry.load_model "fraud_detection" 11
                      (Sample.fraud_world 0.6 (-0.9) 0.75)))
              (Sample.first_loaded
                 (Registry.PBundle
                    (<["supervised_model" := Some (Sample.classifier 0.6)]>
                       (<["isolation_forest" := Some (Sample.detector (-0.9))]>
                          {[ "scaler" := Some Sample.scaler ]})))
                 (Sample.md ["amount"] (Some 0.75%Q)))
              (<["supervised_model" := Some (Sample.classifier 0.6)]>
                 (<["isolation_forest" := Some (Sample.detector (-0.9))]>
                    {[ "scaler" := Some Sample.scaler ]}))
              [Fin 250] 0.6 (- -0.9))
    as (resp & Hrun & Hflag & _ & Hreview & _).
  - vm_compute. reflexivity.
  - vm_compute. reflexivity.
  - reflexivity.
  - vm_compute. reflexivity.
  - vm_compute. reflexivity.
  - vm_compute. exists (-0.9)%Q. split; reflexivity.
  - assert (Hset : Dispatcher.fraud_flag resp = true).
    { apply Hflag. left. reflexivity. }
    exists resp, (snd (Registry.load_model "fraud_detection" 11
                         (Sample.fraud_world 0.6 (-0.9) 0.75))).
    split; [exact Hrun|]. split; [exact Hset|].
    apply Hreview; [unfold Qle; cbn; lia | exact Hset].
Defined.

Lemma churn_segment_and_actions_witness :
  exists resp w1,
    Dispatcher.predict_churn Sample.churn_request Sample.license Sample.clk
      (Sample.churn_world 0.5) = (inr resp, w1)
    /\ Dispatcher.risk_segment resp = "medium"
    /\ length (Dispatcher.recommended_actions resp) = 1%nat.
Proof.
  destruct (churn_segment_and_actions
              Sample.churn_request Sample.license Sample.clk
              (Sample.churn_world 0.5)
              (snd (Registry.load_model "guest_churn" 11
                      (Sample.churn_world 0.5)))
              (Sample.first_loaded
                 (Registry.PBundle
                    (<["model" := Some (Sample.classifier 0.5)]>
                       {[ "scaler" := Some Sample.scaler ]}))
                 (Sample.md ["feedback_score"] None))
              (<["model" := Some (Sample.classifier 0.5)]>
                 {[ "scaler" := Some Sample.scaler ]})
              (Sample.classifier 0.5) Sample.scaler
              [Fin 7] [Fin 7] 0.5)
    as (resp & Hrun & _ & Hmedium & _).
  - vm_compute. reflexivity.
  - vm_compute. reflexivity.
  - reflexivity.
  - vm_compute. reflexivity.
  - vm_compute. reflexivity.
  - vm_compute. reflexivity.
  - reflexivity.
  - reflexivity.
  - destruct Hmedium as [Hseg Hacts]; [reflexivity | unfold Qle; cbn; lia |].
    exists resp, (snd (Registry.load_model "guest_churn" 11
                         (Sample.churn_world 0.5))).
    split; [exact Hrun|]. split; [exact Hseg|]. rewrite Hacts. reflexivity.
Defined.

(** The sample values of the specification, run through the handlers:
    probabilities 0.8, 0.6 (anomaly above the threshold) and 0.1 (anomaly
    below it) for fraud; 0.75, 0.5 and 0.1 for churn. *)
Lemma fraud_sample_values :
  let action p s :=
    match fst (Dispatcher.predict_fraud Sample.fraud_request Sample.license
                 Sample.clk (Sample.fraud_world p s 0.75)) with
    | inr resp => Some (Dispatcher.recommended_action resp)
    | inl _ => None
    end in
  action 0.8%Q (-0.5)%Q = Some "block"
  /\ action 0.6%Q (-0.9)%Q = Some "review"
  /\ action 0.1%Q (-0.5)%Q = Some "accept".
Proof. repeat split; vm_compute; reflexivity. Qed.

Lemma churn_sample_values :
  let outcome q :=
    match fst (Dispatcher.predict_churn Sample.churn_request Sample.license
                 Sample.clk (Sample.churn_world q)) with
    | inr resp => Some (Dispatcher.risk_segment resp,
                        length (Dispatcher.recommended_actions resp))
    | inl _ => None
    end in
  outcome 0.75%Q = Some ("high", 2%nat)
  /\ outcome 0.5%Q = Some ("medium", 1%nat)
  /\ outcome 0.1%Q = Some ("low", 0%nat).
Proof. repeat split; vm_compute; reflexivity. Qed.

Lemma load_model_cached_witness :
  exists a w1 w2,
    Registry.load_model "dynamic_pricing" 11 (Sample.pricing_world 200)
    = (inr a, w1)
    /\ rtc step w1 w2
    /\ Registry.io_log w1 <> Registry.io_log w2
    /\ Registry.load_model "dynamic_pricing" 99 w2 = (inr a, w2).
Proof.
  destruct (Registry.load_model "dynamic_pricing" 11 (Sample.pricing_world 200))
    as [[e|a] w1] eqn:Hload; [vm_compute in Hload; discriminate|].
  pose (w2 := snd (Registry.load_model "guest_churn" 20 w1)).
  assert (Hsteps : rtc step w1 w2).
  { apply rtc_once.
    apply (step_load_model "guest_churn" 20 w1 w2
             (fst (Registry.load_model "guest_churn" 20 w1))).
    apply surjective_pairing. }
  exists a, w1, w2.
  split; [reflexivity|]. split; [exact Hsteps|].
  split.
  - injection Hload as _ <-. vm_compute. discriminate.
  - exact (load_model_cached "dynamic_pricing" 11 99
             (Sample.pricing_world 200) w1 w2 a Hload Hsteps).
Defined.

Lemma load_model_failure_not_cached_witness :
  exists e w',
    Registry.load_model "guest_churn" 5 Sample.empty_world = (inl e, w')
    /\ Registry.LOADED_MODELS w' = Registry.LOADED_MODELS Sample.empty_world
    /\ Registry.LOADED_MODELS w' !! "guest_churn" = None.
Proof.
  destruct (Registry.load_model "guest_churn" 5 Sample.empty_world)
    as [[e|a] w'] eqn:Hload; [|vm_compute in Hload; discriminate].
  exists e, w'. split; [reflexivity|].
  destruct (load_model_failure_not_cached "guest_churn" 5 Sample.empty_world
              w' e Hload) as (Hsame & Hnone & _).
  split; assumption.
Defined.

(** ** Callers served in turn, and the handlers as steps *)

Section Runs.

Import Registry Dispatcher.

(** After a successful call, callers served one after the other all receive
    the object of that call and the state does not move: one load in all. *)
Lemma serve_after_success (model_name : string) (now : Z) (times : list Z)
    (w w1 : world) (a : artifact) :
  load_model model_name now w = (inr a, w1) ->
  serve model_name (now :: times) w
  = (inr a :: map (fun _ => inr a) times, w1).
Proof.
  intros Hload. cbn [serve]. rewrite Hload.
  assert (Hrest : serve model_name times w1
                  = (map (fun _ => inr a) times, w1)).
  { induction times as [|t times IH]; [reflexivity|].
    cbn [serve map].
    rewrite (load_model_hit model_name t w1 a
               (load_model_caches _ _ _ _ _ Hload)).
    rewrite IH. reflexivity. }
  rewrite Hrest. reflexivity.
Qed.

(** When the pickle is missing, every caller served makes its own storage
    access and receives its own 404. *)
Lemma serve_missing_model (model_name : string) (times : list Z) (w : world) :
  LOADED_MODELS w !! model_name = None ->
  files w !! model_path model_name = None ->
  fst (serve model_name times w)
  = map (fun _ => inl (HTTPException 404
                         (Msg ("Model " ++ model_name ++ " not found")))) times
  /\ length (io_log (snd (serve model_name times w)))
     = (length (io_log w) + length times)%nat.
Proof.
  revert w. induction times as [|t times IH]; intros w Hc Hf.
  - cbn. split; [reflexivity | lia].
  - cbn [serve]. rewrite (load_model_miss _ _ _ Hc). cbn zeta. rewrite Hf.
    specialize (IH (record_io (Exists (model_path model_name)) w) Hc Hf).
    destruct (serve model_name times
                (record_io (Exists (model_path model_name)) w)) as [rs w2].
    cbn [fst snd] in *. destruct IH as [-> ->].
    split; [reflexivity|]. cbn. rewrite length_app. cbn. lia.
Qed.

Ltac split_matches :=
  repeat match goal with
         | |- context [match ?x with _ => _ end] => destruct x
         end.

(** A handler changes the state only through its call of [load_model]. *)
Lemma handlers_step (request_data : gmap string pyval)
    (license : License.LicenseVerifier) (clk : clock) (w : world) :
  rtc step w (snd (predict_demand request_data license clk w))
  /\ rtc step w (snd (predict_pricing request_data license clk w))
  /\ rtc step w (snd (predict_fraud request_data license clk w))
  /\ rtc step w (snd (predict_churn request_data license clk w)).
Proof.
  assert (Hgen : forall A name (k : artifact -> M A),
            (forall a v, snd (k a v) = v) ->
            rtc step w
              (snd (try_except (bind (load_model name (at_load clk)) k)
                      (fun e => raise (prediction_error e)) w))).
  { intros A name k Hk. unfold try_except, bind, raise.
    destruct (load_model name (at_load clk) w) as [[e|a] w1] eqn:Hload.
    - cbn. apply rtc_once. econstructor; exact Hload.
    - specialize (Hk a w1). destruct (k a w1) as [[e|x] w2]; cbn in *; subst;
        apply rtc_once; econstructor; exact Hload. }
  repeat split.
  - unfold predict_demand.
    destruct (negb _); [apply rtc_refl | apply Hgen].
    intros a v. unfold bind, lift, ret. split_matches; reflexivity.
  - unfold predict_pricing.
    destruct (negb _); [apply rtc_refl | apply Hgen].
    intros a v. unfold bind, lift, ret. split_matches; reflexivity.
  - unfold predict_fraud.
    destruct (negb _); [apply rtc_refl | apply Hgen].
    intros a v. unfold bind, lift, ret. split_matches; reflexivity.
  - unfold predict_churn.
    destruct (negb _); [apply rtc_refl | apply Hgen].
    intros a v. unfold bind, lift, ret. split_matches; reflexivity.
Qed.

End Runs.

(** * Further properties of the service *)

(** ** The gate, end to end *)

Section GateFacts.

Import License.

Lemma granted_features_lookup (feature : string) :
  default false (granted_features !! feature) = true
  <-> In feature (map fst Service.FEATURE_GATES).
Proof.
  unfold granted_features. cbn [map fst Service.FEATURE_GATES In].
  repeat (rewrite lookup_insert; case_decide;
          [subst; cbn; split;
           [intros _; repeat (first [left; reflexivity | right]) | reflexivity]
          |]).
  rewrite lookup_empty. cbn.
  split; [discriminate|]. intros Hin.
  repeat (destruct Hin as [Hin|Hin]; [congruence|]). contradiction.
Qed.

(** The instance built for a request unlocks a feature at time [now] exactly
    when the key in force (the header, else the environment) has more than
    20 characters, the feature is one of the five names of the gate table,
    and [now] is not later than thirty days after the verification. *)
Theorem can_use_feature_iff (key environ_key : option string) (t0 : Z)
    (feature : string) (now : Z) :
  can_use_feature (Service.verify_license key environ_key t0) feature now = true
  <-> (exists k, py_or key environ_key = Some k
                 /\ (20 < String.length k)%nat)
      /\ In feature (map fst Service.FEATURE_GATES)
      /\ now <= t0 + timedelta_days 30.
Proof.
  unfold Service.verify_license. rewrite init_cases.
  destruct (py_or key environ_key) as [k|].
  2:{ cbn. split; [discriminate|]. intros [(k & [=] & _) _]. }
  destruct (Z.ltb_spec 20 (Z.of_nat (String.length k))) as [Hlen|Hlen].
  - assert (Hne : negb (String.eqb k "") = true).
    { destruct (String.eqb_spec k ""); [subst; cbn in Hlen; lia | reflexivity]. }
    rewrite Hne. cbn [andb]. unfold can_use_feature.
    cbn [is_valid expires_at features negb].
    destruct (Z.ltb_spec (t0 + timedelta_days 30) now) as [Hnow|Hnow].
    + split; [discriminate|]. intros (_ & _ & H). lia.
    + rewrite granted_features_lookup. split.
      * intros H. split; [exists k; split; [reflexivity | lia]|]. auto.
      * intros (_ & H & _). exact H.
  - rewrite andb_false_r. cbn. split; [discriminate|].
    intros [(k' & [= <-] & H) _]. lia.
Qed.

End GateFacts.

Section HandlerFacts.

Import Registry Dispatcher.

(** What a handler does once the gate has been evaluated. *)
Lemma guarded_outcome {A} (gate : bool) (name : string) (now : Z)
    (k : artifact -> M A) (w : world) :
  (forall a v, snd (k a v) = v) ->
  let run := (if negb gate then raise forbidden
              else try_except (bind (load_model name now) k)
                     (fun e => raise (prediction_error e))) w in
  (gate = false -> run = (inl forbidden, w))
  /\ (gate = true -> snd run = snd (load_model name now w))
  /\ match fst run with
     | inl e => e = forbidden \/ exists e0, e = prediction_error e0
     | inr _ => gate = true /\ exists a, fst (load_model name now w) = inr a
     end.
Proof.
  intros Hk. cbn zeta. destruct gate; cbn [negb].
  - unfold try_except, bind, raise.
    destruct (load_model name now w) as [[e|a] w1]; cbn.
    + split; [discriminate|]. split; [reflexivity|]. right. eauto.
    + specialize (Hk a w1). destruct (k a w1) as [[e|x] w2]; cbn in *; subst.
      * split; [discriminate|]. split; [reflexivity|]. right. eauto.
      * split; [discriminate|]. split; [reflexivity|]. eauto.
  - unfold raise. cbn. split; [reflexivity|]. split; [discriminate|]. auto.
Qed.

Ltac case_matches :=
  repeat match goal with
         | |- context [match ?x with _ => _ end] => destruct x
         end.

Lemma demand_outcome request_data license clk w :
  let gate := License.can_use_feature license "demand_forecasting" (at_gate clk) in
  let run := predict_demand request_data license clk w in
  (gate = false -> run = (inl forbidden, w))
  /\ (gate = true -> snd run = snd (load_model "demand_forecast" (at_load clk) w))
  /\ match fst run with
     | inl e => e = forbidden \/ exists e0, e = prediction_error e0
     | inr _ => gate = true
                /\ exists a, fst (load_model "demand_forecast" (at_load clk) w) = inr a
     end.
Proof.
  apply guarded_outcome.
  intros a v. unfold bind, lift, ret. case_matches; reflexivity.
Qed.

Lemma pricing_outcome request_data license clk w :
  let gate := License.can_use_feature license "dynamic_pricing" (at_gate clk) in
  let run := predict_pricing request_data license clk w in
  (gate = false -> run = (inl forbidden, w))
  /\ (gate = true -> snd run = snd (load_model "dynamic_pricing" (at_load clk) w))
  /\ match fst run with
     | inl e => e = forbidden \/ exists e0, e = prediction_error e0
     | inr _ => gate = true
                /\ exists a, fst (load_model "dynamic_pricing" (at_load clk) w) = inr a
     end.
Proof.
  apply guarded_outcome.
  intros a v. unfold bind, lift, ret. case_matches; reflexivity.
Qed.

Lemma fraud_outcome request_data license clk w :
  let gate := License.can_use_feature license "fraud_detection" (at_gate clk) in
  let run := predict_fraud request_data license clk w in
  (gate = false -> run = (inl forbidden, w))
  /\ (gate = true -> snd run = snd (load_model "fraud_detection" (at_load clk) w))
  /\ match fst run with
     | inl e => e = forbidden \/ exists e0, e = prediction_error e0
     | inr _ => gate = true
                /\ exists a, fst (load_model "fraud_detection" (at_load clk) w) = inr a
     end.
Proof.
  apply guarded_outcome.
  intros a v. unfold bind, lift, ret. case_matches; reflexivity.
Qed.

Lemma churn_outcome request_data license clk w :
  let gate := License.can_use_feature license "guest_churn" (at_gate clk) in
  let run := predict_churn request_data license clk w in
  (gate = false -> run = (inl forbidden, w))
  /\ (gate = true -> snd run = snd (load_model "guest_churn" (at_load clk) w))
  /\ match fst run with
     | inl e => e = forbidden \/ exists e0, e = prediction_error e0
     | inr _ => gate = true
                /\ exists a, fst (load_model "guest_churn" (at_load clk) w) = inr a
     end.
Proof.
  apply guarded_outcome.
  intros a v. unfold bind, lift, ret. case_matches; reflexivity.
Qed.

End HandlerFacts.

Section HandlerGuarantees.

Import Registry Dispatcher.

Lemma gate_closed_short_key (key environ_key : option string) (t0 : Z)
    (feature : string) (now : Z) :
  match License.py_or key environ_key with
  | Some k => (String.length k <= 20)%nat
  | None => True
  end ->
  License.can_use_feature (Service.verify_license key environ_key t0)
    feature now = false.
Proof.
  intros Hk. unfold Service.verify_license. rewrite init_cases.
  destruct (License.py_or key environ_key) as [k|]; [|reflexivity].
  destruct (Z.ltb_spec 20 (Z.of_nat (String.length k))); [lia|].
  rewrite andb_false_r. reflexivity.
Qed.

(** A request whose key in force (the header, else the environment) is
    missing or has at most 20 characters is answered 403 by each of the four
    handlers, and the state is left as it was: no file is tested or opened
    and the cache is not consulted. *)
Theorem short_key_request_forbidden (key environ_key : option string)
    (t0 : Z) (request_data : gmap string pyval) (clk : clock) (w : world) :
  match License.py_or key environ_key with
  | Some k => (String.length k <= 20)%nat
  | None => True
  end ->
  let license := Service.verify_license key environ_key t0 in
  predict_demand request_data license clk w = (inl forbidden, w)
  /\ predict_pricing request_data license clk w = (inl forbidden, w)
  /\ predict_fraud request_data license clk w = (inl forbidden, w)
  /\ predict_churn request_data license clk w = (inl forbidden, w).
Proof.
  intros Hk license.
  split; [|split; [|split]].
  - apply demand_outcome. apply gate_closed_short_key. exact Hk.
  - apply pricing_outcome. apply gate_closed_short_key. exact Hk.
  - apply fraud_outcome. apply gate_closed_short_key. exact Hk.
  - apply churn_outcome. apply gate_closed_short_key. exact Hk.
Qed.

Lemma kind_of_handler_error (e : exn) :
  e = forbidden \/ (exists e0, e = prediction_error e0) ->
  kind_of e = Some Forbidden \/ kind_of e = Some InternalError.
Proof. intros [-> | [e0 ->]]; cbn; auto. Qed.

(** Whatever the request, the license, the clock and the state, an error
    raised by one of the four handlers is the 403 of the gate or a 500
    "Prediction error" wrapping the exception caught: a handler never
    answers 404 and never lets another exception through. *)
Theorem handler_errors_are_403_or_500 (request_data : gmap string pyval)
    (license : License.LicenseVerifier) (clk : clock) (w : world) :
  let raised {A} (run : result A * world) :=
    match fst run with
    | inl e => (e = forbidden \/ exists e0, e = prediction_error e0)
               /\ (kind_of e = Some Forbidden \/ kind_of e = Some InternalError)
    | inr _ => True
    end in
  raised (predict_demand request_data license clk w)
  /\ raised (predict_pricing request_data license clk w)
  /\ raised (predict_fraud request_data license clk w)
  /\ raised (predict_churn request_data license clk w).
Proof.
  cbn zeta.
  pose proof (demand_outcome request_data license clk w) as (_ & _ & Hd).
  pose proof (pricing_outcome request_data license clk w) as (_ & _ & Hp).
  pose proof (fraud_outcome request_data license clk w) as (_ & _ & Hf).
  pose proof (churn_outcome request_data license clk w) as (_ & _ & Hc).
  cbn zeta in *.
  split; [|split; [|split]].
  - destruct (fst (predict_demand _ _ _ _)); [|exact I].
    split; [exact Hd | apply kind_of_handler_error; exact Hd].
  - destruct (fst (predict_pricing _ _ _ _)); [|exact I].
    split; [exact Hp | apply kind_of_handler_error; exact Hp].
  - destruct (fst (predict_fraud _ _ _ _)); [|exact I].
    split; [exact Hf | apply kind_of_handler_error; exact Hf].
  - destruct (fst (predict_churn _ _ _ _)); [|exact I].
    split; [exact Hc | apply kind_of_handler_error; exact Hc].
Qed.

(** A call of [load_model] leaves the entries of all other names alone. *)
Lemma load_model_other_names (model_name : string) (now : Z) (w : world)
    (n : string) :
  n <> model_name ->
  LOADED_MODELS (snd (load_model model_name now w)) !! n
  = LOADED_MODELS w !! n.
Proof.
  intros Hn.
  destruct (LOADED_MODELS w !! model_name) as [a0|] eqn:Hc.
  - rewrite (load_model_hit _ _ _ _ Hc). reflexivity.
  - rewrite (load_model_miss _ _ _ Hc). cbn zeta.
    destruct (files w !! model_path model_name) as [f|]; [|reflexivity].
    destruct (pickle_load f) as [e|obj]; [reflexivity|].
    destruct (match files w !! metadata_path model_name with
              | Some g => json_load g
              | None => _
              end) as [e|md]; [reflexivity|].
    cbn. apply lookup_insert_ne. congruence.
Qed.

Lemma handler_frame (name : string) (now : Z) (w w' : world) :
  w' = w \/ w' = snd (load_model name now w) ->
  files w' = files w
  /\ (forall n, n <> name -> LOADED_MODELS w' !! n = LOADED_MODELS w !! n)
  /\ (forall n a, LOADED_MODELS w !! n = Some a ->
        LOADED_MODELS w' !! n = Some a)
  /\ exists evs, io_log w' = (io_log w ++ evs)%list.
Proof.
  intros [-> | ->].
  - split; [reflexivity|]. split; [reflexivity|]. split; [auto|].
    exists []. symmetry. apply app_nil_r.
  - destruct (load_model_frame name now w (snd (load_model name now w))
                (fst (load_model name now w)) (surjective_pairing _))
      as (Hfiles & Hlog & Hkeep).
    split; [exact Hfiles|]. split; [|split; [exact Hkeep | exact Hlog]].
    intros n Hn. apply load_model_other_names. exact Hn.
Qed.

Lemma outcome_world {A} (gate : bool) (run : result A * world)
    (w v : world) :
  (gate = false -> run = (inl forbidden, w)) ->
  (gate = true -> snd run = v) ->
  snd run = w \/ snd run = v.
Proof.
  intros Hf Ht. destruct gate.
  - right. apply Ht. reflexivity.
  - left. rewrite Hf; reflexivity.
Qed.

(** A handler never changes the files, never removes or replaces an entry of
    the cache, and never adds an entry under a name other than that of its
    own model; the accesses it logs come after those already logged. *)
Theorem handler_touches_only_its_model (request_data : gmap string pyval)
    (license : License.LicenseVerifier) (clk : clock) (w : world) :
  let kept (name : string) (w' : world) :=
    files w' = files w
    /\ (forall n, n <> name -> LOADED_MODELS w' !! n = LOADED_MODELS w !! n)
    /\ (forall n a, LOADED_MODELS w !! n = Some a ->
          LOADED_MODELS w' !! n = Some a)
    /\ exists evs, io_log w' = (io_log w ++ evs)%list in
  kept "demand_forecast" (snd (predict_demand request_data license clk w))
  /\ kept "dynamic_pricing" (snd (predict_pricing request_data license clk w))
  /\ kept "fraud_detection" (snd (predict_fraud request_data license clk w))
  /\ kept "guest_churn" (snd (predict_churn request_data license clk w)).
Proof.
  cbn zeta.
  pose proof (demand_outcome request_data license clk w) as (Hd0 & Hd1 & _).
  pose proof (pricing_outcome request_data license clk w) as (Hp0 & Hp1 & _).
  pose proof (fraud_outcome request_data license clk w) as (Hf0 & Hf1 & _).
  pose proof (churn_outcome request_data license clk w) as (Hc0 & Hc1 & _).
  cbn zeta in *.
  split; [|split; [|split]].
  - apply (handler_frame _ (at_load clk)). eapply outcome_world; eassumption.
  - apply (handler_frame _ (at_load clk)). eapply outcome_world; eassumption.
  - apply (handler_frame _ (at_load clk)). eapply outcome_world; eassumption.
  - apply (handler_frame _ (at_load clk)). eapply outcome_world; eassumption.
Qed.

(** Once the gate is passed and [load_model] has succeeded, the state a
    handler leaves is the state [load_model] left, whatever happens next: a
    request that then fails, on a bad field or in the scoring, is answered
    500 but its model stays cached. *)
Theorem failed_request_keeps_model_cached (request_data : gmap string pyval)
    (license : License.LicenseVerifier) (clk : clock) (w w1 : world)
    (a : artifact) :
  (License.can_use_feature license "demand_forecasting" (at_gate clk) = true ->
   load_model "demand_forecast" (at_load clk) w = (inr a, w1) ->
   snd (predict_demand request_data license clk w) = w1
   /\ LOADED_MODELS w1 !! "demand_forecast" = Some a)
  /\ (License.can_use_feature license "dynamic_pricing" (at_gate clk) = true ->
      load_model "dynamic_pricing" (at_load clk) w = (inr a, w1) ->
      snd (predict_pricing request_data license clk w) = w1
      /\ LOADED_MODELS w1 !! "dynamic_pricing" = Some a)
  /\ (License.can_use_feature license "fraud_detection" (at_gate clk) = true ->
      load_model "fraud_detection" (at_load clk) w = (inr a, w1) ->
      snd (predict_fraud request_data license clk w) = w1
      /\ LOADED_MODELS w1 !! "fraud_detection" = Some a)
  /\ (License.can_use_feature license "guest_churn" (at_gate clk) = true ->
      load_model "guest_churn" (at_load clk) w = (inr a, w1) ->
      snd (predict_churn request_data license clk w) = w1
      /\ LOADED_MODELS w1 !! "guest_churn" = Some a).
Proof.
  pose proof (demand_outcome request_data license clk w) as (_ & Hd & _).
  pose proof (pricing_outcome request_data license clk w) as (_ & Hp & _).
  pose proof (fraud_outcome request_data license clk w) as (_ & Hf & _).
  pose proof (churn_outcome request_data license clk w) as (_ & Hc & _).
  cbn zeta in *.
  split; [|split; [|split]]; intros Hgate Hload.
  - split; [rewrite (Hd Hgate), Hload; reflexivity|].
    eapply load_model_caches; exact Hload.
  - split; [rewrite (Hp Hgate), Hload; reflexivity|].
    eapply load_model_caches; exact Hload.
  - split; [rewrite (Hf Hgate), Hload; reflexivity|].
    eapply load_model_caches; exact Hload.
  - split; [rewrite (Hc Hgate), Hload; reflexivity|].
    eapply load_model_caches; exact Hload.
Qed.

End HandlerGuarantees.

Lemma short_key_request_forbidden_witness :
  Dispatcher.predict_demand Sample.pricing_request
    (Service.verify_license (Some "short-key") None 0) Sample.clk
    (Sample.pricing_world 200)
  = (inl Dispatcher.forbidden, Sample.pricing_world 200)
  /\ Dispatcher.predict_pricing Sample.pricing_request
       (Service.verify_license (Some "short-key") None 0) Sample.clk
       (Sample.pricing_world 200)
     = (inl Dispatcher.forbidden, Sample.pricing_world 200)
  /\ Dispatcher.predict_fraud Sample.pricing_request
       (Service.verify_license (Some "short-key") None 0) Sample.clk
       (Sample.pricing_world 200)
     = (inl Dispatcher.forbidden, Sample.pricing_world 200)
  /\ Dispatcher.predict_churn Sample.pricing_request
       (Service.verify_license (Some "short-key") None 0) Sample.clk
       (Sample.pricing_world 200)
     = (inl Dispatcher.forbidden, Sample.pricing_world 200).
Proof.
  apply (short_key_request_forbidden (Some "short-key") None 0
           Sample.pricing_request Sample.clk (Sample.pricing_world 200)).
  simpl. lia.
Defined.

(** ** More on rounding and on the price bounds *)

Section RoundingFacts.








End RoundingFacts.

(** ** The pricing handler at the edges *)

Section PricingEdges.

Import Registry Dispatcher.

(** The run of the handler once the model has answered. *)
Lemma pricing_run (request_data : gmap string pyval)
    (license : License.LicenseVerifier) (clk : clock) (w w1 : world)
    (art : artifact) (m : estimator) (X : list npfloat) (raw : Q) :
  License.can_use_feature license "dynamic_pricing" (at_gate clk) = true ->
  load_model "dynamic_pricing" (at_load clk) w = (inr art, w1) ->
  model art = PEstimator m ->
  Py.feature_vector (default [] (feature_schema (metadata art)))
    (PyDict request_data) = inr X ->
  predict m X = inr raw ->
  predict_pricing request_data license clk w =
    (match operand (default (PyFloat 150.0) (request_data !! "current_price")) with
     | inl e => inl (prediction_error e)
     | inr c =>
         let clamped := PyNum.max (c * 0.8)%Q (PyNum.min (c * 1.3)%Q raw) in
         if Qeq_bool c 0
         then inl (prediction_error
                     (PyExc "ZeroDivisionError" "division by zero"))
         else inr {| p_property_id := request_data !! "property_id";
                     p_room_type := request_data !! "room_type";
                     current_price := c;
                     recommended_price := PyNum.round clamped 2;
                     price_change_percent :=
                       PyNum.round ((clamped - c) / c * 100) 2;
                     p_confidence :=
                       metric (evaluation_metrics (metadata art)) "test_mape" 0.12;
                     p_model_version := model_version (metadata art);
                     p_timestamp := at_response clk |}
     end, w1).
Proof.
  intros Hgate Hload Hmodel HX Hraw.
  unfold predict_pricing. rewrite Hgate. cbn [negb].
  rewrite (try_load_success _ _ _ _ _ _ Hload).
  unfold try_except, bind, lift, ret, raise, truediv.
  rewrite HX, Hmodel, Hraw.
  destruct (operand _) as [e|c]; [reflexivity|].
  cbn zeta. destruct (Qeq_bool c 0); reflexivity.
Qed.

Lemma operand_zero (v : pyval) (c : Q) :
  Py.number v = Some c -> c == 0 -> operand v = inr c.
Proof.
  destruct v as [|b|z|x|s l|d]; cbn [Py.number operand]; try discriminate;
    try (intros [= <-] _; reflexivity).
  intros [= <-] Hz.
  assert (z = 0) as -> by (unfold Qeq in Hz; cbn in Hz; lia).
  reflexivity.
Qed.

Lemma operand_not_number (v : pyval) :
  Py.number v = None ->
  operand v = inl (PyExc "TypeError" "unsupported operand type(s)").
Proof. destruct v; cbn [Py.number operand]; try discriminate; reflexivity. Qed.

(** A pricing request whose [current_price] is zero, or is not a number, is
    answered 500 after the model has been loaded and has scored the row: the
    division by the price raises [ZeroDivisionError], the product with a
    value that is not a number raises [TypeError]. *)
Theorem pricing_rejects_unusable_price (request_data : gmap string pyval)
    (license : License.LicenseVerifier) (clk : clock) (w w1 : world)
    (art : artifact) (m : estimator) (X : list npfloat) (raw : Q) :
  License.can_use_feature license "dynamic_pricing" (at_gate clk) = true ->
  load_model "dynamic_pricing" (at_load clk) w = (inr art, w1) ->
  model art = PEstimator m ->
  Py.feature_vector (default [] (feature_schema (metadata art)))
    (PyDict request_data) = inr X ->
  predict m X = inr raw ->
  (forall c,
     Py.number (default (PyFloat 150.0) (request_data !! "current_price"))
       = Some c ->
     c == 0 ->
     predict_pricing request_data license clk w
     = (inl (prediction_error (PyExc "ZeroDivisionError" "division by zero")),
        w1))
  /\ (Py.number (default (PyFloat 150.0) (request_data !! "current_price"))
        = None ->
      predict_pricing request_data license clk w
      = (inl (prediction_error (PyExc "TypeError" "unsupported operand type(s)")),
         w1)).
Proof.
  intros Hgate Hload Hmodel HX Hraw.
  rewrite (pricing_run _ _ _ _ _ _ _ _ _ Hgate Hload Hmodel HX Hraw).
  split.
  - intros c Hnum Hc. rewrite (operand_zero _ _ Hnum Hc). cbn zeta.
    apply Qeq_bool_iff in Hc. rewrite Hc. reflexivity.
  - intros Hnum. rewrite (operand_not_number _ Hnum). reflexivity.
Qed.



End PricingEdges.

Lemma pricing_rejects_unusable_price_witness :
  Dispatcher.predict_pricing {[ "current_price" := PyInt 0 ]}
    Sample.license Sample.clk (Sample.pricing_world 200)
  = (inl (Dispatcher.prediction_error
            (PyExc "ZeroDivisionError" "division by zero")),
     snd (Registry.load_model "dynamic_pricing" 11 (Sample.pricing_world 200)))
  /\ Dispatcher.predict_pricing {[ "current_price" := PyStr "cheap" None ]}
       Sample.license Sample.clk (Sample.pricing_world 200)
     = (inl (Dispatcher.prediction_error
               (PyExc "TypeError" "unsupported operand type(s)")),
        snd (Registry.load_model "dynamic_pricing" 11 (Sample.pricing_world 200))).
Proof.
  split.
  - apply (proj1 (pricing_rejects_unusable_price
                    {[ "current_price" := PyInt 0 ]}
                    Sample.license Sample.clk (Sample.pricing_world 200)
                    (snd (Registry.load_model "dynamic_pricing" 11
                            (Sample.pricing_world 200)))
                    (Sample.first_loaded
                       (Registry.PEstimator (Sample.regressor 200))
                       (Sample.md ["occupancy_rate"; "competitor_prices_avg"] None))
                    (Sample.regressor 200) [Fin 0; Fin 0] 200
                    ltac:(vm_compute; reflexivity) ltac:(vm_compute; reflexivity)
                    eq_refl ltac:(vm_compute; reflexivity) eq_refl) 0%Q).
    + vm_compute. reflexivity.
    + reflexivity.
  - apply (proj2 (pricing_rejects_unusable_price
                    {[ "current_price" := PyStr "cheap" None ]}
                    Sample.license Sample.clk (Sample.pricing_world 200)
                    (snd (Registry.load_model "dynamic_pricing" 11
                            (Sample.pricing_world 200)))
                    (Sample.first_loaded
                       (Registry.PEstimator (Sample.regressor 200))
                       (Sample.md ["occupancy_rate"; "competitor_prices_avg"] None))
                    (Sample.regressor 200) [Fin 0; Fin 0] 200
                    ltac:(vm_compute; reflexivity) ltac:(vm_compute; reflexivity)
                    eq_refl ltac:(vm_compute; reflexivity) eq_refl)).
    vm_compute. reflexivity.
Defined.



Lemma failed_request_keeps_model_cached_witness :
  fst (Dispatcher.predict_pricing
         (<["occupancy_rate" := PyStr "high" None]> Sample.pricing_request)
         Sample.license Sample.clk (Sample.pricing_world 200))
  = inl (Dispatcher.prediction_error
           (PyExc "ValueError" "could not convert string to float: 'high'"))
  /\ Registry.LOADED_MODELS
       (snd (Dispatcher.predict_pricing
               (<["occupancy_rate" := PyStr "high" None]> Sample.pricing_request)
               Sample.license Sample.clk (Sample.pricing_world 200)))
     !! "dynamic_pricing"
     = Some (Sample.first_loaded
               (Registry.PEstimator (Sample.regressor 200))
               (Sample.md ["occupancy_rate"; "competitor_prices_avg"] None)).
Proof.
  split; [vm_compute; reflexivity|].
  destruct (proj1 (proj2 (failed_request_keeps_model_cached
              (<["occupancy_rate" := PyStr "high" None]> Sample.pricing_request)
              Sample.license Sample.clk (Sample.pricing_world 200)
              (snd (Registry.load_model "dynamic_pricing" 11
                      (Sample.pricing_world 200)))
              (Sample.first_loaded
                 (Registry.PEstimator (Sample.regressor 200))
                 (Sample.md ["occupancy_rate"; "competitor_prices_avg"] None))))
              ltac:(vm_compute; reflexivity) ltac:(vm_compute; reflexivity))
    as [Hw Hc].
  rewrite Hw. exact Hc.
Defined.

(** ** The demand and fraud handlers *)

Section DemandAndFraud.

Import Registry Dispatcher.

Lemma demand_run (request_data : gmap string pyval)
    (license : License.LicenseVerifier) (clk : clock) (w w1 : world)
    (art : artifact) :
  License.can_use_feature license "demand_forecasting" (at_gate clk) = true ->
  load_model "demand_forecast" (at_load clk) w = (inr art, w1) ->
  predict_demand request_data license clk w =
    (match subscript (model art) "model" with
     | inl e => inl (prediction_error e)
     | inr mo =>
         match Py.feature_vector (default [] (feature_schema (metadata art)))
                 (default (PyDict ∅) (request_data !! "features")) with
         | inl e => inl (prediction_error e)
         | inr X =>
             match call predict mo X with
             | inl e => inl (prediction_error e)
             | inr y =>
                 inr {| d_property_id := request_data !! "property_id";
                        d_room_type := request_data !! "room_type";
                        d_model_version := model_version (metadata art);
                        forecast_value := y;
                        d_confidence :=
                          metric (evaluation_metrics (metadata art))
                            "test_mape" 0.15;
                        d_timestamp := at_response clk |}
             end
         end
     end, w1).
Proof.
  intros Hgate Hload.
  unfold predict_demand. rewrite Hgate. cbn [negb].
  rewrite (try_load_success _ _ _ _ _ _ Hload).
  unfold try_except, bind, lift, ret, raise.
  destruct (subscript (model art) "model") as [e|mo]; [reflexivity|].
  destruct (Py.feature_vector _ _) as [e|X]; [reflexivity|].
  destruct (call predict mo X) as [e|y]; reflexivity.
Qed.

(** The demand handler subscripts the unpickled object twice with 'model'.
    When the pickle holds the estimator itself, which is what the demand
    pipeline dumps ([pickle.dump(self.model, f)]), every request that passes
    the gate is answered 500 with the [TypeError] of the subscript, whatever
    it contains; the model is loaded and cached all the same. *)
Theorem demand_rejects_pickled_estimator (request_data : gmap string pyval)
    (license : License.LicenseVerifier) (clk : clock) (w w1 : world)
    (art : artifact) (m : estimator) :
  License.can_use_feature license "demand_forecasting" (at_gate clk) = true ->
  load_model "demand_forecast" (at_load clk) w = (inr art, w1) ->
  model art = PEstimator m ->
  predict_demand request_data license clk w
  = (inl (prediction_error (PyExc "TypeError" "object is not subscriptable")),
     w1).
Proof.
  intros Hgate Hload Hmodel.
  rewrite (demand_run _ _ _ _ _ _ Hgate Hload), Hmodel. reflexivity.
Qed.

(** When the pickle holds a dict with the estimator under 'model', the
    response carries the answer of the estimator unchanged as
    [forecast_value], the [test_mape] of the metadata as [confidence], 0.15
    when the metadata has none, and the request's [property_id] and
    [room_type] as they came. *)
Theorem demand_reports_raw_forecast (request_data : gmap string pyval)
    (license : License.LicenseVerifier) (clk : clock) (w w1 : world)
    (art : artifact) (d : gmap string (option estimator)) (m : estimator)
    (X : list npfloat) (y : Q) :
  License.can_use_feature license "demand_forecasting" (at_gate clk) = true ->
  load_model "demand_forecast" (at_load clk) w = (inr art, w1) ->
  model art = PBundle d ->
  d !! "model" = Some (Some m) ->
  Py.feature_vector (default [] (feature_schema (metadata art)))
    (default (PyDict ∅) (request_data !! "features")) = inr X ->
  predict m X = inr y ->
  exists resp,
    predict_demand request_data license clk w = (inr resp, w1)
    /\ forecast_value resp = y
    /\ d_confidence resp
       = match evaluation_metrics (metadata art) with
         | Some em => default 0.15%Q (em !! "test_mape")
         | None => 0.15%Q
         end
    /\ d_model_version resp = model_version (metadata art)
    /\ d_property_id resp = request_data !! "property_id"
    /\ d_room_type resp = request_data !! "room_type".
Proof.
  intros Hgate Hload Hmodel Hm HX Hy.
  rewrite (demand_run _ _ _ _ _ _ Hgate Hload), Hmodel.
  cbn [subscript]. rewrite Hm, HX. cbn [call]. rewrite Hy.
  eexists. split; [reflexivity|]. cbn.
  repeat split. unfold metric.
  destruct (evaluation_metrics (metadata art)); cbn; [reflexivity|].
  rewrite lookup_empty. reflexivity.
Qed.

Lemma feature_vector_no_payload (S : list string) :
  Py.feature_vector S (PyDict ∅) = inr (map (fun _ => Fin 0) S).
Proof.
  rewrite feature_vector_dict.
  induction S as [|f S IH]; [reflexivity|].
  cbn [map rmap]. rewrite lookup_empty. cbn. rewrite IH. reflexivity.
Qed.

(** The demand handler reads the features under the key 'features' only: a
    request without that key is scored on the all-zero row, whatever it
    holds at its top level. *)
Theorem demand_without_features_scores_zeros (request_data : gmap string pyval)
    (license : License.LicenseVerifier) (clk : clock) (w w1 : world)
    (art : artifact) (d : gmap string (option estimator)) (m : estimator)
    (y : Q) :
  License.can_use_feature license "demand_forecasting" (at_gate clk) = true ->
  load_model "demand_forecast" (at_load clk) w = (inr art, w1) ->
  model art = PBundle d ->
  d !! "model" = Some (Some m) ->
  request_data !! "features" = None ->
  predict m (map (fun _ => Fin 0) (default [] (feature_schema (metadata art))))
    = inr y ->
  exists resp,
    predict_demand request_data license clk w = (inr resp, w1)
    /\ forecast_value resp = y.
Proof.
  intros Hgate Hload Hmodel Hm Hnone Hy.
  rewrite (demand_run _ _ _ _ _ _ Hgate Hload), Hmodel.
  cbn [subscript]. rewrite Hm, Hnone. cbn [default].
  rewrite feature_vector_no_payload. cbn [call]. rewrite Hy.
  eexists. split; reflexivity.
Qed.

Lemma gt_07_gt_05 (p : Q) : PyNum.gt p 0.7 = true -> PyNum.gt p 0.5 = true.
Proof. rewrite !gt_true. intros H. lra. Qed.

Lemma fraud_run (request_data : gmap string pyval)
    (license : License.LicenseVerifier) (clk : clock) (w w1 : world)
    (art : artifact) :
  License.can_use_feature license "fraud_detection" (at_gate clk) = true ->
  load_model "fraud_detection" (at_load clk) w = (inr art, w1) ->
  predict_fraud request_data license clk w =
    (match bundle_get (model art) "supervised_model" with
     | inl e => inl (prediction_error e)
     | inr supervised_model =>
     match bundle_get (model art) "isolation_forest" with
     | inl e => inl (prediction_error e)
     | inr isolation_forest =>
     match Py.feature_vector (default [] (feature_schema (metadata art)))
             (PyDict request_data) with
     | inl e => inl (prediction_error e)
     | inr X =>
     match match supervised_model with
           | Some m => predict_proba m X
           | None => inr 0%Q
           end with
     | inl e => inl (prediction_error e)
     | inr p =>
     match match isolation_forest with
           | Some m => rbind (score_samples m X) (fun s => inr (- s)%Q)
           | None => inr 0%Q
           end with
     | inl e => inl (prediction_error e)
     | inr a =>
         let flag :=
           PyNum.gt p 0.5
           || PyNum.gt a (metric (unsupervised_metrics (metadata art))
                            "anomaly_threshold" 0.7) in
         inr {| transaction_id := request_data !! "transaction_id";
                fraud_probability := PyNum.round (p * 100) 2;
                anomaly_score := PyNum.round a 3;
                fraud_flag := flag;
                recommended_action :=
                  if PyNum.gt p 0.7 then "block"
                  else if flag then "review" else "accept";
                reasons :=
                  if flag then ["high_amount"; "geo_mismatch"] else [];
                f_model_version := model_version (metadata art);
                f_timestamp := at_response clk |}
     end end end end end, w1).
Proof.
  intros Hgate Hload.
  unfold predict_fraud. rewrite Hgate. cbn [negb].
  rewrite (try_load_success _ _ _ _ _ _ Hload).
  unfold try_except, bind, lift, ret, raise.
  destruct (bundle_get (model art) "supervised_model") as [e|sm]; [reflexivity|].
  destruct (bundle_get (model art) "isolation_forest") as [e|iso]; [reflexivity|].
  destruct (Py.feature_vector _ _) as [e|X]; [reflexivity|].
  destruct (match sm with Some m => _ | None => _ end) as [e|p]; [reflexivity|].
  destruct (match iso with Some m => _ | None => _ end) as [e|a]; reflexivity.
Qed.

(** In every response of the fraud handler the action and the reasons
    follow the flag: the action is "accept" exactly when the flag is clear,
    "block" and "review" only come with the flag set, and the reasons are
    the two fixed ones when the flag is set and none otherwise. *)
Theorem fraud_action_follows_flag (request_data : gmap string pyval)
    (license : License.LicenseVerifier) (clk : clock) (w w' : world)
    (resp : fraud_response) :
  predict_fraud request_data license clk w = (inr resp, w') ->
  (recommended_action resp = "accept" <-> fraud_flag resp = false)
  /\ (recommended_action resp = "block" \/ recommended_action resp = "review"
      <-> fraud_flag resp = true)
  /\ reasons resp
     = (if fraud_flag resp then ["high_amount"; "geo_mismatch"] else []).
Proof.
  intros Hrun.
  pose proof (fraud_outcome request_data license clk w) as (_ & _ & Hok).
  cbn zeta in Hok. rewrite Hrun in Hok. cbn [fst] in Hok.
  destruct Hok as (Hgate & art & Hart).
  assert (Hload : load_model "fraud_detection" (at_load clk) w
                  = (inr art, snd (load_model "fraud_detection" (at_load clk) w))).
  { rewrite <- Hart. apply surjective_pairing. }
  rewrite (fraud_run _ _ _ _ _ _ Hgate Hload) in Hrun.
  destruct (bundle_get (model art) "supervised_model") as [e|sm]; [discriminate|].
  destruct (bundle_get (model art) "isolation_forest") as [e|iso]; [discriminate|].
  destruct (Py.feature_vector _ _) as [e|X]; [discriminate|].
  destruct (match sm with Some m => _ | None => _ end) as [e|p]; [discriminate|].
  destruct (match iso with Some m => _ | None => _ end) as [e|a]; [discriminate|].
  injection Hrun as <- _.
  cbn [recommended_action fraud_flag reasons].
  pose proof (gt_07_gt_05 p) as H75.
  destruct (PyNum.gt p 0.7).
  - rewrite (H75 eq_refl). cbn. repeat split; try discriminate; auto.
  - clear H75.
    destruct (PyNum.gt p 0.5 || PyNum.gt a _);
      repeat split; try discriminate; auto; intros [H|H]; discriminate.
Qed.

(** A bundle that holds neither model scores every transaction 0 and 0: the
    flag is then set exactly when the stored threshold is negative, and with
    a threshold of 0 or more, or none stored, every transaction is accepted
    with no reason. *)
Theorem fraud_without_models (request_data : gmap string pyval)
    (license : License.LicenseVerifier) (clk : clock) (w w1 : world)
    (art : artifact) (d : gmap string (option estimator)) (X : list npfloat) :
  License.can_use_feature license "fraud_detection" (at_gate clk) = true ->
  load_model "fraud_detection" (at_load clk) w = (inr art, w1) ->
  model art = PBundle d ->
  default None (d !! "supervised_model") = None ->
  default None (d !! "isolation_forest") = None ->
  Py.feature_vector (default [] (feature_schema (metadata art)))
    (PyDict request_data) = inr X ->
  exists resp,
    predict_fraud request_data license clk w = (inr resp, w1)
    /\ fraud_probability resp == 0
    /\ anomaly_score resp == 0
    /\ (fraud_flag resp = true
        <-> (stored_anomaly_threshold (metadata art) < 0)%Q)
    /\ ((0 <= stored_anomaly_threshold (metadata art))%Q ->
        recommended_action resp = "accept" /\ reasons resp = []).
Proof.
  intros Hgate Hload Hmodel Hsm Hiso HX.
  rewrite (fraud_run _ _ _ _ _ _ Hgate Hload), Hmodel.
  cbn [bundle_get]. rewrite Hsm, Hiso, HX. cbn zeta.
  eexists. split; [reflexivity|].
  cbn [fraud_probability anomaly_score fraud_flag recommended_action reasons].
  assert (Hthr : metric (unsupervised_metrics (metadata art))
                   "anomaly_threshold" 0.7
                 = stored_anomaly_threshold (metadata art)).
  { unfold metric, stored_anomaly_threshold.
    destruct (unsupervised_metrics (metadata art)); cbn; [reflexivity|].
    rewrite lookup_empty. reflexivity. }
  rewrite Hthr.
  assert (H5 : PyNum.gt 0 0.5 = false) by reflexivity.
  assert (H7 : PyNum.gt 0 0.7 = false) by reflexivity.
  rewrite H5, H7. cbn [orb].
  split; [vm_compute; reflexivity|]. split; [vm_compute; reflexivity|].
  split; [apply gt_true|].
  intros Hpos. apply gt_false in Hpos. rewrite Hpos. split; reflexivity.
Qed.

End DemandAndFraud.

Lemma demand_rejects_pickled_estimator_witness :
  Dispatcher.predict_demand
    {[ "features" := PyDict {[ "occupancy_rate" := PyFloat 0.65 ]} ]}
    Sample.license Sample.clk
    (Sample.installed "demand_forecast"
       (Registry.PEstimator (Sample.regressor 42))
       (Sample.md ["occupancy_rate"] None))
  = (inl (Dispatcher.prediction_error
            (PyExc "TypeError" "object is not subscriptable")),
     snd (Registry.load_model "demand_forecast" 11
            (Sample.installed "demand_forecast"
               (Registry.PEstimator (Sample.regressor 42))
               (Sample.md ["occupancy_rate"] None)))).
Proof.
  apply (demand_rejects_pickled_estimator _ Sample.license Sample.clk _ _
           (Sample.first_loaded (Registry.PEstimator (Sample.regressor 42))
              (Sample.md ["occupancy_rate"] None))
           (Sample.regressor 42)).
  - vm_compute. reflexivity.
  - vm_compute. reflexivity.
  - reflexivity.
Defined.

Lemma demand_reports_raw_forecast_witness :
  exists resp,
    Dispatcher.predict_demand
      {[ "features" := PyDict {[ "occupancy_rate" := PyFloat 0.65 ]} ]}
      Sample.license Sample.clk
      (Sample.installed "demand_forecast"
         (Registry.PBundle {[ "model" := Some (Sample.regressor 42) ]})
         (Sample.md ["occupancy_rate"] None))
    = (inr resp,
       snd (Registry.load_model "demand_forecast" 11
              (Sample.installed "demand_forecast"
                 (Registry.PBundle {[ "model" := Some (Sample.regressor 42) ]})
                 (Sample.md ["occupancy_rate"] None))))
    /\ Dispatcher.forecast_value resp = 42%Q
    /\ Dispatcher.d_confidence resp = 0.1%Q.
Proof.
  destruct (demand_reports_raw_forecast
              {[ "features" := PyDict {[ "occupancy_rate" := PyFloat 0.65 ]} ]}
              Sample.license Sample.clk
              (Sample.installed "demand_forecast"
                 (Registry.PBundle {[ "model" := Some (Sample.regressor 42) ]})
                 (Sample.md ["occupancy_rate"] None))
              (snd (Registry.load_model "demand_forecast" 11
                      (Sample.installed "demand_forecast"
                         (Registry.PBundle
                            {[ "model" := Some (Sample.regressor 42) ]})
                         (Sample.md ["occupancy_rate"] None))))
              (Sample.first_loaded
                 (Registry.PBundle {[ "model" := Some (Sample.regressor 42) ]})
                 (Sample.md ["occupancy_rate"] None))
              {[ "model" := Some (Sample.regressor 42) ]}
              (Sample.regressor 42) [Fin 0.65] 42)
    as (resp & Hrun & Hy & Hconf & _).
  - vm_compute. reflexivity.
  - vm_compute. reflexivity.
  - reflexivity.
  - vm_compute. reflexivity.
  - vm_compute. reflexivity.
  - reflexivity.
  - exists resp. split; [exact Hrun|]. split; [exact Hy|].
    rewrite Hconf. vm_compute. reflexivity.
Defined.

Lemma demand_without_features_scores_zeros_witness :
  exists resp,
    Dispatcher.predict_demand {[ "occupancy_rate" := PyFloat 0.65 ]}
      Sample.license Sample.clk
      (Sample.installed "demand_forecast"
         (Registry.PBundle {[ "model" := Some (Sample.regressor 42) ]})
         (Sample.md ["occupancy_rate"] None))
    = (inr resp,
       snd (Registry.load_model "demand_forecast" 11
              (Sample.installed "demand_forecast"
                 (Registry.PBundle {[ "model" := Some (Sample.regressor 42) ]})
                 (Sample.md ["occupancy_rate"] None))))
    /\ Dispatcher.forecast_value resp = 42%Q.
Proof.
  apply (demand_without_features_scores_zeros
           {[ "occupancy_rate" := PyFloat 0.65 ]}
           Sample.license Sample.clk
           (Sample.installed "demand_forecast"
              (Registry.PBundle {[ "model" := Some (Sample.regressor 42) ]})
              (Sample.md ["occupancy_rate"] None))
           (snd (Registry.load_model "demand_forecast" 11
                   (Sample.installed "demand_forecast"
                      (Registry.PBundle
                         {[ "model" := Some (Sample.regressor 42) ]})
                      (Sample.md ["occupancy_rate"] None))))
           (Sample.first_loaded
              (Registry.PBundle {[ "model" := Some (Sample.regressor 42) ]})
              (Sample.md ["occupancy_rate"] None))
           {[ "model" := Some (Sample.regressor 42) ]}
           (Sample.regressor 42) 42).
  - vm_compute. reflexivity.
  - vm_compute. reflexivity.
  - reflexivity.
  - vm_compute. reflexivity.
  - vm_compute. reflexivity.
  - reflexivity.
Defined.

Lemma fraud_action_follows_flag_witness :
  exists resp,
    Dispatcher.predict_fraud Sample.fraud_request Sample.license Sample.clk
      (Sample.fraud_world 0.8 (-0.5) 0.75)
    = (inr resp,
       snd (Registry.load_model "fraud_detection" 11
              (Sample.fraud_world 0.8 (-0.5) 0.75)))
    /\ Dispatcher.recommended_action resp = "block"
    /\ Dispatcher.fraud_flag resp = true
    /\ Dispatcher.reasons resp = ["high_amount"; "geo_mismatch"].
Proof.
  destruct (Dispatcher.predict_fraud Sample.fraud_request Sample.license
              Sample.clk (Sample.fraud_world 0.8 (-0.5) 0.75))
    as [[e|resp] w'] eqn:Hrun; [vm_compute in Hrun; discriminate|].
  destruct (fraud_action_follows_flag _ _ _ _ _ _ Hrun) as (_ & Hflag & Hreasons).
  assert (Haction : Dispatcher.recommended_action resp = "block").
  { vm_compute in Hrun. injection Hrun as <- _. reflexivity. }
  assert (Hw : w' = snd (Registry.load_model "fraud_detection" 11
                           (Sample.fraud_world 0.8 (-0.5) 0.75))).
  { vm_compute in Hrun. injection Hrun as _ <-. vm_compute. reflexivity. }
  exists resp. rewrite Hw. split; [reflexivity|]. split; [exact Haction|].
  assert (Hset : Dispatcher.fraud_flag resp = true)
    by (apply Hflag; left; exact Haction).
  split; [exact Hset|]. rewrite Hreasons, Hset. reflexivity.
Defined.

Lemma fraud_without_models_witness :
  exists resp,
    Dispatcher.predict_fraud Sample.fraud_request Sample.license Sample.clk
      (Sample.installed "fraud_detection"
         (Registry.PBundle {[ "scaler" := Some Sample.scaler ]})
         (Sample.md ["amount"] None))
    = (inr resp,
       snd (Registry.load_model "fraud_detection" 11
              (Sample.installed "fraud_detection"
                 (Registry.PBundle {[ "scaler" := Some Sample.scaler ]})
                 (Sample.md ["amount"] None))))
    /\ Dispatcher.recommended_action resp = "accept"
    /\ Dispatcher.reasons resp = [].
Proof.
  destruct (fraud_without_models
              Sample.fraud_request Sample.license Sample.clk
              (Sample.installed "fraud_detection"
                 (Registry.PBundle {[ "scaler" := Some Sample.scaler ]})
                 (Sample.md ["amount"] None))
              (snd (Registry.load_model "fraud_detection" 11
                      (Sample.installed "fraud_detection"
                         (Registry.PBundle {[ "scaler" := Some Sample.scaler ]})
                         (Sample.md ["amount"] None))))
              (Sample.first_loaded
                 (Registry.PBundle {[ "scaler" := Some Sample.scaler ]})
                 (Sample.md ["amount"] None))
              {[ "scaler" := Some Sample.scaler ]} [Fin 250])
    as (resp & Hrun & _ & _ & _ & Haccept).
  - vm_compute. reflexivity.
  - vm_compute. reflexivity.
  - reflexivity.
  - vm_compute. reflexivity.
  - vm_compute. reflexivity.
  - vm_compute. reflexivity.
  - exists resp. split; [exact Hrun|]. apply Haccept. vm_compute. discriminate.
Defined.

(** ** More on the feature vector *)

Section FeatureVectorEdges.

(** The vector depends on the payload only through the keys of the schema:
    keys the schema does not list are never read, so a value that would not
    convert does no harm under such a key. *)
Theorem feature_vector_ignores_unlisted_keys (S : list string)
    (P P' : gmap string pyval) :
  (forall f, f ∈ S -> P !! f = P' !! f) ->
  Py.feature_vector S (PyDict P) = Py.feature_vector S (PyDict P').
Proof.
  intros Hagree. rewrite !feature_vector_dict. f_equal.
  induction S as [|f S IH]; [reflexivity|].
  cbn [map]. rewrite (Hagree f) by (left; reflexivity).
  rewrite IH; [reflexivity|]. intros g Hg. apply Hagree. right. exact Hg.
Qed.

(** A [features] value that is not a dict has no [get]: with an empty schema
    no lookup is made and the vector is empty, with any other schema the
    first lookup raises [AttributeError]. *)
Theorem feature_vector_of_non_dict (S : list string) (v : pyval) :
  (forall m, v <> PyDict m) ->
  Py.feature_vector S v
  = match S with
    | [] => inr []
    | _ :: _ => inl (PyExc "AttributeError" "object has no attribute 'get'")
    end.
Proof.
  intros Hv. unfold Py.feature_vector.
  destruct S as [|f S]; [reflexivity|].
  cbn [rmap]. destruct v; try reflexivity. exfalso. eapply Hv. reflexivity.
Qed.

End FeatureVectorEdges.

Lemma feature_vector_ignores_unlisted_keys_witness :
  Py.feature_vector ["amount"] (PyDict {[ "amount" := PyFloat 250 ]})
  = Py.feature_vector ["amount"]
      (PyDict (<["transaction_id" := PyStr "txn_123" None]>
                 {[ "amount" := PyFloat 250 ]})).
Proof.
  apply feature_vector_ignores_unlisted_keys.
  intros f Hf. apply list_elem_of_singleton in Hf. subst f.
  vm_compute. reflexivity.
Defined.

Lemma feature_vector_of_non_dict_witness :
  Py.feature_vector ["occupancy_rate"] (PyFloat 0.65)
  = inl (PyExc "AttributeError" "object has no attribute 'get'").
Proof.
  apply (feature_vector_of_non_dict ["occupancy_rate"] (PyFloat 0.65)).
  intros m. discriminate.
Defined.

(** ** Loading, health and status *)

Section LoadOutcomes.

Import Registry.

(** On a cache miss the outcome is decided by the files alone.  Without the
    pickle the call raises 404 after the one existence test.  With the
    pickle present, an unreadable pickle raises 500 without the metadata
    being opened, and a missing or unreadable metadata file raises 500 as
    well, not 404.  Otherwise the call returns an object that holds what
    the two loaders gave and the time of the call. *)
Theorem load_model_outcomes (model_name : string) (now : Z) (w : world) :
  LOADED_MODELS w !! model_name = None ->
  (files w !! model_path model_name = None ->
   load_model model_name now w
   = (inl (HTTPException 404 (Msg ("Model " ++ model_name ++ " not found"))),
      record_io (Exists (model_path model_name)) w))
  /\ (forall f e,
        files w !! model_path model_name = Some f ->
        pickle_load f = inl e ->
        load_model model_name now w
        = (inl (HTTPException 500 (MsgStr "Error loading model: " e)),
           record_io (Open (model_path model_name))
             (record_io (Exists (model_path model_name)) w)))
  /\ (forall f obj,
        files w !! model_path model_name = Some f ->
        pickle_load f = inr obj ->
        files w !! metadata_path model_name = None ->
        fst (load_model model_name now w)
        = inl (HTTPException 500
                 (MsgStr "Error loading model: "
                    (PyExc "FileNotFoundError" (metadata_path model_name)))))
  /\ (forall f obj g e,
        files w !! model_path model_name = Some f ->
        pickle_load f = inr obj ->
        files w !! metadata_path model_name = Some g ->
        json_load g = inl e ->
        fst (load_model model_name now w)
        = inl (HTTPException 500 (MsgStr "Error loading model: " e)))
  /\ (forall a,
        fst (load_model model_name now w) = inr a <->
        exists f g,
          files w !! model_path model_name = Some f
          /\ files w !! metadata_path model_name = Some g
          /\ pickle_load f = inr (model a)
          /\ json_load g = inr (metadata a)
          /\ loaded_at a = now
          /\ oid a = next_oid w).
Proof.
  intros Hc. rewrite (load_model_miss _ _ _ Hc). cbn zeta.
  split; [intros ->; reflexivity|].
  split; [intros f e -> ->; reflexivity|].
  split; [intros f obj -> -> ->; reflexivity|].
  split; [intros f obj g e -> -> -> ->; reflexivity|].
  intros a.
  destruct (files w !! model_path model_name) as [f|].
  2:{ cbn. split; [discriminate|]. intros (f & g & [=] & _). }
  destruct (pickle_load f) as [e|obj] eqn:Hf.
  { cbn. split; [discriminate|].
    intros (f' & g & [= <-] & _ & H & _). congruence. }
  destruct (files w !! metadata_path model_name) as [g|].
  2:{ cbn. split; [discriminate|]. intros (f' & g & _ & [=] & _). }
  destruct (json_load g) as [e|md] eqn:Hg.
  { cbn. split; [discriminate|].
    intros (f' & g' & _ & [= <-] & _ & H & _). congruence. }
  cbn. split.
  - intros [= <-]. exists f, g. cbn. repeat split; assumption.
  - intros (f' & g' & [= <-] & [= <-] & Hm & Hmd & Ht & Ho).
    destruct a as [o mo me lt]. cbn in *.
    rewrite Hf in Hm. rewrite Hg in Hmd.
    injection Hm as <-. injection Hmd as <-. subst. reflexivity.
Qed.

Lemma app_cons_neq {A} (l evs : list A) (x : A) : (l ++ x :: evs)%list <> l.
Proof.
  intros H. apply (f_equal (@length A)) in H.
  rewrite length_app in H. cbn in H. lia.
Qed.

Lemma load_model_miss_logs (model_name : string) (now : Z) (w : world) :
  LOADED_MODELS w !! model_name = None ->
  exists evs,
    io_log (snd (load_model model_name now w))
    = (io_log w ++ Exists (model_path model_name) :: evs)%list.
Proof.
  intros Hc. rewrite (load_model_miss _ _ _ Hc). cbn zeta.
  destruct (files w !! model_path model_name) as [f|].
  2:{ exists []. reflexivity. }
  destruct (pickle_load f) as [e|obj].
  { eexists. cbn. rewrite <- app_assoc. reflexivity. }
  destruct (match files w !! metadata_path model_name with
            | Some g => json_load g
            | None => _
            end) as [e|md];
    eexists; cbn; rewrite <- !app_assoc; reflexivity.
Qed.

(** [health_check] changes nothing, and the names it reports are exactly
    those [load_model] serves from memory, that is, returns without touching
    the storage or the cache. *)
Theorem health_lists_models_served_from_memory (now t : Z) (w : world)
    (model_name : string) :
  exists h,
    Service.health_check now w = (inr h, w)
    /\ Service.h_status h = "healthy"
    /\ (model_name ∈ Service.models_loaded h
        <-> exists a, load_model model_name t w = (inr a, w)).
Proof.
  eexists. split; [reflexivity|]. split; [reflexivity|].
  cbn [Service.models_loaded]. rewrite elem_of_dom. split.
  - intros [a Ha]. exists a. apply load_model_hit. exact Ha.
  - intros [a Hload].
    destruct (LOADED_MODELS w !! model_name) as [a0|] eqn:Hc; [eauto|].
    exfalso. destruct (load_model_miss_logs model_name t w Hc) as [evs Hlog].
    rewrite Hload in Hlog. cbn [snd] in Hlog.
    symmetry in Hlog. exact (app_cons_neq _ _ _ Hlog).
Qed.

End LoadOutcomes.

Lemma load_model_outcomes_witness :
  Registry.load_model "guest_churn" 5 Sample.empty_world
  = (inl (HTTPException 404 (Msg "Model guest_churn not found")),
     Registry.record_io (Registry.Exists "models/guest_churn.pkl")
       Sample.empty_world).
Proof.
  apply (proj1 (load_model_outcomes "guest_churn" 5 Sample.empty_world eq_refl)).
  reflexivity.
Defined.

Section StatusFacts.

Import Registry Service.

(** The body of the loop, path by path. *)
Lemma status_entry_cases (license : License.LicenseVerifier) (now : Z)
    (n : string) (w : world) :
  status_entry license now n w =
    let w1 := record_io (Exists (model_path n)) w in
    match files w !! model_path n with
    | None => (inr None, w1)
    | Some _ =>
        let w2 := record_io (Exists (metadata_path n)) w1 in
        match files w !! metadata_path n with
        | None => (inr None, w2)
        | Some g =>
            (match json_load g with
             | inl e => inl e
             | inr md =>
                 inr (Some {| name := n;
                              version := model_version md;
                              available :=
                                License.can_use_feature license n now;
                              metrics := evaluation_metrics md |})
             end,
             record_io (Open (metadata_path n)) w2)
        end
    end.
Proof.
  unfold status_entry, bind, ret, path_exists, open_and. cbn.
  destruct (files w !! model_path n) as [f|]; cbn; [|reflexivity].
  destruct (files w !! metadata_path n) as [g|] eqn:Hg; cbn; [|reflexivity].
  rewrite ?Hg.
  destruct (json_load g) as [e|md]; reflexivity.
Qed.

Lemma same_but_log_refl (w : world) : same_but_log w w.
Proof.
  split; [reflexivity|]. split; [reflexivity|]. split; [reflexivity|].
  exists []. symmetry. apply app_nil_r.
Qed.

Lemma same_but_log_trans (w1 w2 w3 : world) :
  same_but_log w1 w2 -> same_but_log w2 w3 -> same_but_log w1 w3.
Proof.
  intros (Hc1 & Hf1 & Ho1 & evs1 & Hl1) (Hc2 & Hf2 & Ho2 & evs2 & Hl2).
  split; [congruence|]. split; [congruence|]. split; [congruence|].
  exists (evs1 ++ evs2)%list. rewrite Hl2, Hl1, app_assoc. reflexivity.
Qed.

Lemma status_entry_frame license now n w :
  same_but_log w (snd (status_entry license now n w)).
Proof.
  rewrite status_entry_cases. cbn zeta.
  assert (Hdone : forall w' evs,
            LOADED_MODELS w' = LOADED_MODELS w -> files w' = files w ->
            next_oid w' = next_oid w ->
            io_log w' = (io_log w ++ evs)%list -> same_but_log w w')
    by (intros w' evs ? ? ? ?; repeat split; eauto).
  destruct (files w !! model_path n) as [f|].
  2:{ eapply Hdone; reflexivity. }
  destruct (files w !! metadata_path n) as [g|].
  2:{ eapply Hdone; try reflexivity. cbn. rewrite <- app_assoc. reflexivity. }
  eapply Hdone; try reflexivity. cbn. rewrite <- !app_assoc. reflexivity.
Qed.

Lemma status_entries_frame license now_of names w :
  same_but_log w (snd (status_entries license now_of names w)).
Proof.
  revert w. induction names as [|n names IH]; intros w; cbn [status_entries].
  - apply same_but_log_refl.
  - unfold bind, ret.
    pose proof (status_entry_frame license (now_of n) n w) as H1.
    destruct (status_entry license (now_of n) n w) as [[e|entry] w1];
      cbn [snd] in *; [exact H1|].
    specialize (IH w1).
    destruct (status_entries license now_of names w1) as [[e|entries] w2];
      cbn [snd] in *; eapply same_but_log_trans; eassumption.
Qed.

Lemma status_entries_spec license now_of names w :
  match fst (status_entries license now_of names w) with
  | inr infos =>
      (forall info, info ∈ infos ->
         name info ∈ names /\ entry_for license now_of (files w) info)
      /\ (forall n, n ∈ names ->
            is_Some (files w !! model_path n) ->
            is_Some (files w !! metadata_path n) ->
            n ∈ map name infos)
      /\ sublist (map name infos) names
  | inl e =>
      exists n g, n ∈ names
                  /\ is_Some (files w !! model_path n)
                  /\ files w !! metadata_path n = Some g
                  /\ json_load g = inl e
  end.
Proof.
  revert w. induction names as [|n names IH]; intros w; cbn [status_entries].
  - cbn. split; [|split].
    + intros info Hin. inversion Hin.
    + intros n Hn. inversion Hn.
    + constructor.
  - unfold bind, ret.
    pose proof (status_entry_frame license (now_of n) n w) as (_ & Hfs & _).
    revert Hfs. rewrite status_entry_cases. cbn zeta.
    destruct (files w !! model_path n) as [f|] eqn:Hf.
    2:{ cbn [fst snd]. intros Hfs. specialize (IH (record_io (Exists (model_path n)) w)).
        cbn [files record_io] in IH.
        destruct (status_entries license now_of names _) as [[e|infos] w2];
          cbn [fst] in *.
        - destruct IH as (n' & g & Hn' & H). exists n', g. split; [right; exact Hn'|exact H].
        - destruct IH as (H1 & H2 & H3). split; [|split].
          + intros info Hin. destruct (H1 info Hin). split; [right|]; assumption.
          + intros n' Hn' Hm Hmd. apply elem_of_cons in Hn'.
            destruct Hn' as [->|Hn']; [|auto].
            rewrite Hf in Hm. destruct Hm as [? [=]].
          + apply sublist_cons. exact H3. }
    destruct (files w !! metadata_path n) as [g|] eqn:Hg.
    2:{ cbn [fst snd]. intros Hfs.
        specialize (IH (record_io (Exists (metadata_path n))
                          (record_io (Exists (model_path n)) w))).
        cbn [files record_io] in IH.
        destruct (status_entries license now_of names _) as [[e|infos] w2];
          cbn [fst] in *.
        - destruct IH as (n' & g & Hn' & H). exists n', g. split; [right; exact Hn'|exact H].
        - destruct IH as (H1 & H2 & H3). split; [|split].
          + intros info Hin. destruct (H1 info Hin). split; [right|]; assumption.
          + intros n' Hn' Hm Hmd. apply elem_of_cons in Hn'.
            destruct Hn' as [->|Hn']; [|auto].
            rewrite Hg in Hmd. destruct Hmd as [? [=]].
          + apply sublist_cons. exact H3. }
    destruct (json_load g) as [e|md] eqn:Hjson; cbn [fst snd]; intros Hfs.
    { exists n, g. split; [left|]. split; [eauto|]. split; [exact Hg|exact Hjson]. }
    specialize (IH (record_io (Open (metadata_path n))
                      (record_io (Exists (metadata_path n))
                         (record_io (Exists (model_path n)) w)))).
    cbn [files record_io] in IH.
    destruct (status_entries license now_of names _) as [[e|infos] w2];
      cbn [fst] in *.
    + destruct IH as (n' & g' & Hn' & H). exists n', g'. split; [right; exact Hn'|exact H].
    + destruct IH as (H1 & H2 & H3). split; [|split].
      * intros info Hin. apply elem_of_cons in Hin.
        destruct Hin as [->|Hin].
        -- split; [left|]. exists f, g, md. cbn.
           repeat split; first [assumption | reflexivity].
        -- destruct (H1 info Hin). split; [right|]; assumption.
      * intros n' Hn' Hm Hmd. cbn [map]. apply elem_of_cons in Hn'.
        destruct Hn' as [->|Hn']; [left | right; auto].
      * cbn [map name]. apply sublist_skip. exact H3.
Qed.

Lemma status_entry_first license now n w :
  exists evs,
    io_log (snd (status_entry license now n w))
    = (io_log w ++ Exists (model_path n) :: evs)%list.
Proof.
  rewrite status_entry_cases. cbn zeta.
  destruct (files w !! model_path n).
  2:{ exists []. reflexivity. }
  destruct (files w !! metadata_path n);
    eexists; cbn; rewrite <- ?app_assoc; reflexivity.
Qed.

Lemma status_entries_first license now_of n rest w :
  exists evs,
    io_log (snd (status_entries license now_of (n :: rest) w))
    = (io_log w ++ Exists (model_path n) :: evs)%list.
Proof.
  cbn [status_entries]. unfold bind, ret.
  destruct (status_entry_first license (now_of n) n w) as [evs0 H0].
  destruct (status_entry license (now_of n) n w) as [[e|entry] w1];
    cbn [snd] in *; [eauto|].
  destruct (status_entries_frame license now_of rest w1)
    as (_ & _ & _ & evs1 & H1).
  destruct (status_entries license now_of rest w1) as [[e|entries] w2];
    cbn [snd] in *; rewrite H1, H0, <- app_assoc; cbn; eauto.
Qed.

(** The answer of one entry depends on the state through the files only. *)
Lemma status_entry_files_only license now n v v' :
  files v = files v' ->
  fst (status_entry license now n v) = fst (status_entry license now n v')
  /\ files (snd (status_entry license now n v))
     = files (snd (status_entry license now n v')).
Proof.
  intros Hfs. rewrite !status_entry_cases. cbn zeta. rewrite Hfs.
  destruct (files v' !! model_path n); [|cbn; auto].
  destruct (files v' !! metadata_path n); cbn; auto.
Qed.

Lemma status_entries_files_only license now_of names v v' :
  files v = files v' ->
  fst (status_entries license now_of names v)
  = fst (status_entries license now_of names v').
Proof.
  revert v v'. induction names as [|n names IH]; intros v v' Hfs;
    [reflexivity|].
  cbn [status_entries]. unfold bind, ret.
  destruct (status_entry_files_only license (now_of n) n v v' Hfs)
    as [Hfst Hfiles].
  destruct (status_entry license (now_of n) n v) as [[e|entry] v1];
    destruct (status_entry license (now_of n) n v') as [[e'|entry'] v1'];
    cbn [fst snd] in *; try discriminate; [congruence|].
  injection Hfst as <-.
  specialize (IH v1 v1' Hfiles).
  destruct (status_entries license now_of names v1) as [[?|?] ?];
    destruct (status_entries license now_of names v1') as [[?|?] ?];
    cbn in *; try discriminate; try congruence.
  injection IH as <-. reflexivity.
Qed.

Lemma model_status_run license now_of now w :
  model_status license now_of now w =
    (match fst (status_entries license now_of (map fst FEATURE_GATES) w) with
     | inl e => inl e
     | inr infos => inr {| license_valid := License.is_valid license;
                           license_expires := License.expires_at license;
                           models := infos;
                           s_timestamp := now |}
     end,
     snd (status_entries license now_of (map fst FEATURE_GATES) w)).
Proof.
  unfold model_status, bind, ret.
  destruct (status_entries _ _ _ w) as [[e|infos] w']; reflexivity.
Qed.

(** [model_status] goes to the files at every call and never to the cache:
    it leaves the cache and the files as they are, starts by testing the
    pickle of the first name of the gate table, and gives the same answer
    whatever the cache holds. *)
Theorem model_status_bypasses_cache (license : License.LicenseVerifier)
    (now_of : string -> Z) (now : Z) (w : world)
    (cache : gmap string artifact) :
  LOADED_MODELS (snd (model_status license now_of now w)) = LOADED_MODELS w
  /\ files (snd (model_status license now_of now w)) = files w
  /\ (exists evs,
        io_log (snd (model_status license now_of now w))
        = (io_log w ++ Exists "models/demand_forecasting.pkl" :: evs)%list)
  /\ fst (model_status license now_of now
            {| LOADED_MODELS := cache; files := files w;
               io_log := io_log w; next_oid := next_oid w |})
     = fst (model_status license now_of now w).
Proof.
  rewrite !model_status_run. cbn [fst snd].
  destruct (status_entries_frame license now_of (map fst FEATURE_GATES) w)
    as (Hc & Hf & _ & _).
  split; [exact Hc|]. split; [exact Hf|]. split.
  - exact (status_entries_first license now_of "demand_forecasting" _ w).
  - rewrite (status_entries_files_only license now_of (map fst FEATURE_GATES)
               {| LOADED_MODELS := cache; files := files w;
                  io_log := io_log w; next_oid := next_oid w |} w eq_refl).
    reflexivity.
Qed.

(** What [model_status] lists, when it answers: the entries follow the order
    of the gate table; a name is listed exactly when it is one of the five
    names of the table and both its pickle and its metadata file exist; each
    entry carries the version and metrics of the metadata file and, as
    [available], what [can_use_feature] says for the name.  The name
    'demand_forecast', under which the demand handler loads its model, is
    never listed. *)
Theorem model_status_lists_gate_names (license : License.LicenseVerifier)
    (now_of : string -> Z) (now : Z) (w w' : world) (resp : status_response) :
  model_status license now_of now w = (inr resp, w') ->
  license_valid resp = License.is_valid license
  /\ license_expires resp = License.expires_at license
  /\ sublist (map name (models resp)) (map fst FEATURE_GATES)
  /\ (forall n, n ∈ map name (models resp) <->
        n ∈ map fst FEATURE_GATES
        /\ is_Some (files w !! model_path n)
        /\ is_Some (files w !! metadata_path n))
  /\ (forall info, info ∈ models resp ->
        entry_for license now_of (files w) info)
  /\ ("demand_forecast" ∉ map name (models resp)).
Proof.
  rewrite model_status_run.
  pose proof (status_entries_spec license now_of (map fst FEATURE_GATES) w)
    as Hspec.
  destruct (fst (status_entries _ _ _ w)) as [e|infos]; [discriminate|].
  intros [= <- _]. cbn [license_valid license_expires models].
  destruct Hspec as (H1 & H2 & H3).
  assert (Hiff : forall n, n ∈ map name infos <->
            n ∈ map fst FEATURE_GATES
            /\ is_Some (files w !! model_path n)
            /\ is_Some (files w !! metadata_path n)).
  { intros n. split.
    - intros Hn. change (map name infos) with (name <$> infos) in Hn.
      apply list_elem_of_fmap in Hn. destruct Hn as (info & -> & Hin).
      destruct (H1 info Hin) as (Hname & f & g & md & Hf & Hg & _).
      split; [exact Hname|]. split; eauto.
    - intros (Hn & Hm & Hmd). apply H2; assumption. }
  split; [reflexivity|]. split; [reflexivity|]. split; [exact H3|].
  split; [exact Hiff|]. split; [intros info Hin; apply (H1 info Hin)|].
  intros Hin. apply Hiff in Hin. destruct Hin as [Hin _].
  cbn in Hin. repeat (apply elem_of_cons in Hin; destruct Hin as [Hin|Hin];
                      [discriminate|]).
  inversion Hin.
Qed.

(** [model_status] makes no license check of its own: for every verifier,
    valid or not, it answers, and never with a 403, provided the metadata
    files it opens load as well-formed documents.  The models installed
    under the names of the gate table are listed whatever the license, and
    when the license is not valid every entry has [available] false. *)
Theorem model_status_needs_no_license (license : License.LicenseVerifier)
    (now_of : string -> Z) (now : Z) (w : world) :
  (forall n g,
     n ∈ map fst FEATURE_GATES ->
     is_Some (files w !! model_path n) ->
     files w !! metadata_path n = Some g ->
     exists md, json_load g = inr md) ->
  exists resp,
    fst (model_status license now_of now w) = inr resp
    /\ license_valid resp = License.is_valid license
    /\ (forall n, n ∈ map name (models resp) <->
          n ∈ map fst FEATURE_GATES
          /\ is_Some (files w !! model_path n)
          /\ is_Some (files w !! metadata_path n))
    /\ (License.is_valid license = false ->
        forall info, info ∈ models resp -> available info = false).
Proof.
  intros Hall. rewrite model_status_run. cbn [fst].
  pose proof (status_entries_spec license now_of (map fst FEATURE_GATES) w)
    as Hspec.
  destruct (fst (status_entries _ _ _ w)) as [e|infos].
  { destruct Hspec as (n & g & Hn & Hm & Hg & He).
    destruct (Hall n g Hn Hm Hg) as [md Hmd]. congruence. }
  destruct Hspec as (H1 & H2 & _).
  eexists. split; [reflexivity|]. cbn [license_valid models].
  split; [reflexivity|]. split.
  - intros n. split.
    + intros Hn. change (map name infos) with (name <$> infos) in Hn.
      apply list_elem_of_fmap in Hn. destruct Hn as (info & -> & Hin).
      destruct (H1 info Hin) as (Hname & f & g & md & Hf & Hg & _).
      split; [exact Hname|]. split; eauto.
    + intros (Hn & Hm & Hmd). apply H2; assumption.
  - intros Hinvalid info Hin.
    destruct (H1 info Hin) as (_ & f & g & md & _ & _ & _ & _ & _ & Hav).
    rewrite Hav. unfold License.can_use_feature. rewrite Hinvalid. reflexivity.
Qed.

(** [update_models] looks at [is_valid] alone: an instance that is valid but
    past its expiry, to which [can_use_feature] refuses every feature, is
    still answered, with no update and the next check a day later; an
    instance that is not valid is answered 403.  The state is not touched
    either way. *)
Theorem update_models_ignores_expiry (license : License.LicenseVerifier)
    (now : Z) (w : world) :
  (License.is_valid license = false ->
   update_models license now w
   = (inl (HTTPException 403 (Msg "License not valid")), w))
  /\ (License.is_valid license = true ->
      update_models license now w
      = (inr {| u_status := "update_check_complete";
                updates_available := [];
                next_check := now + 86400000000 |}, w)
      /\ forall e, License.expires_at license = Some e -> e < now ->
           forall feature,
             License.can_use_feature license feature now = false).
Proof.
  unfold update_models, raise, ret. split; intros Hv; rewrite Hv; cbn [negb].
  - reflexivity.
  - split; [reflexivity|].
    intros e He Hlt feature. unfold License.can_use_feature.
    rewrite Hv, He. cbn [negb].
    destruct (Z.ltb_spec e now); [reflexivity | lia].
Qed.

End StatusFacts.

Section StatusAndDemand.

Import Registry Service.

(** The status looks for the demand model under the name of the feature,
    'demand_forecasting', while the demand handler loads it under
    'demand_forecast': a models directory that holds only the files the
    handler loads serves the demand model but never lists it. *)
Theorem served_demand_model_is_not_listed (license : License.LicenseVerifier)
    (now_of : string -> Z) (now t : Z) (w w1 w' : world) (a : artifact)
    (resp : status_response) :
  load_model "demand_forecast" t w = (inr a, w1) ->
  files w !! model_path "demand_forecasting" = None ->
  model_status license now_of now w1 = (inr resp, w') ->
  forall info, info ∈ models resp ->
    name info <> "demand_forecast" /\ name info <> "demand_forecasting".
Proof.
  intros Hload Hnone Hstatus info Hin.
  destruct (load_model_frame _ _ _ _ _ Hload) as (Hfiles & _).
  rewrite model_status_run in Hstatus.
  pose proof (status_entries_spec license now_of (map fst FEATURE_GATES) w1)
    as Hspec.
  destruct (fst (status_entries _ _ _ w1)) as [e|infos]; [discriminate|].
  injection Hstatus as <- _. cbn [models] in Hin.
  destruct Hspec as (H1 & _ & _).
  destruct (H1 info Hin) as (Hname & f & g & md & Hf & _).
  split; intros Heq; rewrite Heq in *.
  - cbn in Hname.
    repeat (apply elem_of_cons in Hname; destruct Hname as [Hname|Hname];
            [discriminate|]).
    inversion Hname.
  - rewrite Hfiles in Hf. congruence.
Qed.

End StatusAndDemand.

Lemma model_status_lists_gate_names_witness :
  exists resp w',
    Service.model_status Sample.license (fun _ => 10) 20
      (Sample.pricing_world 200) = (inr resp, w')
    /\ map Service.name (Service.models resp) = ["dynamic_pricing"]
    /\ ("demand_forecast" ∉ map Service.name (Service.models resp))
    /\ Service.license_valid resp = true.
Proof.
  destruct (Service.model_status Sample.license (fun _ => 10) 20
              (Sample.pricing_world 200)) as [[e|resp] w'] eqn:Hrun;
    [vm_compute in Hrun; discriminate|].
  destruct (model_status_lists_gate_names _ _ _ _ _ _ Hrun)
    as (Hvalid & _ & _ & _ & _ & Hnot).
  exists resp, w'. split; [reflexivity|].
  split; [vm_compute in Hrun; injection Hrun as <- _; reflexivity|].
  split; [exact Hnot|]. rewrite Hvalid. vm_compute. reflexivity.
Defined.

Lemma served_demand_model_is_not_listed_witness :
  exists a resp,
    fst (Registry.load_model "demand_forecast" 11
           (Sample.installed "demand_forecast"
              (Registry.PBundle {[ "model" := Some (Sample.regressor 42) ]})
              (Sample.md ["occupancy_rate"] None)))
    = inr a
    /\ fst (Service.model_status Sample.license (fun _ => 10) 20
              (snd (Registry.load_model "demand_forecast" 11
                      (Sample.installed "demand_forecast"
                         (Registry.PBundle
                            {[ "model" := Some (Sample.regressor 42) ]})
                         (Sample.md ["occupancy_rate"] None)))))
       = inr resp
    /\ forall info, info ∈ Service.models resp ->
         Service.name info <> "demand_forecast"
         /\ Service.name info <> "demand_forecasting".
Proof.
  destruct (Registry.load_model "demand_forecast" 11
              (Sample.installed "demand_forecast"
                 (Registry.PBundle {[ "model" := Some (Sample.regressor 42) ]})
                 (Sample.md ["occupancy_rate"] None)))
    as [[e|a] w1] eqn:Hload; [vm_compute in Hload; discriminate|].
  destruct (Service.model_status Sample.license (fun _ => 10) 20 w1)
    as [[e|resp] w'] eqn:Hstatus.
  { exfalso. injection Hload as _ <-. vm_compute in Hstatus. discriminate. }
  exists a, resp. cbn [fst snd]. rewrite Hstatus. cbn [fst].
  split; [reflexivity|]. split; [reflexivity|].
  apply (served_demand_model_is_not_listed Sample.license (fun _ => 10) 20 11
           _ w1 w' a resp Hload); [vm_compute; reflexivity | exact Hstatus].
Defined.

(** ** Callers of one uncached name, served in turn *)

Section SingleFlight.

Import Registry.

Lemma load_attempts_record_io (n : string) (ev : io_event) (w : world) :
  load_attempts n (record_io ev w)
  = (load_attempts n w + (if is_load_attempt n ev then 1 else 0))%nat.
Proof.
  unfold load_attempts. cbn [io_log record_io].
  rewrite List.filter_app, length_app. cbn [List.filter].
  destruct (is_load_attempt n ev); reflexivity.
Qed.

Lemma is_load_attempt_exists (n : string) :
  is_load_attempt n (Exists (model_path n)) = true.
Proof. cbn. apply String.eqb_refl. Qed.

(** A call for a name that is not cached makes exactly one load attempt,
    whatever its outcome. *)
Lemma load_model_miss_attempt (n : string) (t : Z) (w : world) :
  LOADED_MODELS w !! n = None ->
  load_attempts n (snd (load_model n t w)) = S (load_attempts n w).
Proof.
  intros Hc. rewrite (load_model_miss _ _ _ Hc). cbn zeta.
  destruct (files w !! model_path n) as [f|].
  2:{ cbn [snd]. rewrite load_attempts_record_io, is_load_attempt_exists. lia. }
  destruct (pickle_load f) as [e|obj].
  { cbn [snd]. rewrite !load_attempts_record_io, is_load_attempt_exists.
    cbn. lia. }
  destruct (match files w !! metadata_path n with
            | Some g => json_load g
            | None => _
            end) as [e|md]; cbn [snd].
  - rewrite !load_attempts_record_io, is_load_attempt_exists. cbn. lia.
  - unfold load_attempts at 1. cbn [io_log].
    change (length (List.filter (is_load_attempt n)
              (io_log (record_io (Open (metadata_path n))
                 (record_io (Open (model_path n))
                    (record_io (Exists (model_path n)) w))))))
      with (load_attempts n (record_io (Open (metadata_path n))
              (record_io (Open (model_path n))
                 (record_io (Exists (model_path n)) w)))).
    rewrite !load_attempts_record_io, is_load_attempt_exists. cbn. lia.
Qed.

(** A failed call leaves the cache and the files as they were, and the same
    call fails in the same way in every state with that cache and those
    files. *)
Lemma load_model_failure_again (n : string) (t : Z) (w w1 : world) (e : exn) :
  load_model n t w = (inl e, w1) ->
  LOADED_MODELS w !! n = None
  /\ LOADED_MODELS w1 = LOADED_MODELS w
  /\ files w1 = files w
  /\ forall t' v,
       LOADED_MODELS v = LOADED_MODELS w -> files v = files w ->
       fst (load_model n t' v) = inl e
       /\ LOADED_MODELS (snd (load_model n t' v)) = LOADED_MODELS w
       /\ files (snd (load_model n t' v)) = files w.
Proof.
  intros Hload.
  assert (Hc : LOADED_MODELS w !! n = None).
  { destruct (LOADED_MODELS w !! n) as [a0|] eqn:Hc; [|reflexivity].
    rewrite (load_model_hit _ _ _ _ Hc) in Hload. discriminate. }
  split; [exact Hc|].
  assert (Hagain : forall t' v,
            LOADED_MODELS v = LOADED_MODELS w -> files v = files w ->
            fst (load_model n t' v) = inl e
            /\ LOADED_MODELS (snd (load_model n t' v)) = LOADED_MODELS w
            /\ files (snd (load_model n t' v)) = files w).
  { intros t' v Hcv Hfv.
    assert (Hc' : LOADED_MODELS v !! n = None) by (rewrite Hcv; exact Hc).
    rewrite (load_model_miss _ _ _ Hc'). rewrite (load_model_miss _ _ _ Hc) in Hload.
    cbn zeta in *. rewrite Hfv.
    destruct (files w !! model_path n) as [f|].
    2:{ injection Hload as <- _. cbn. auto. }
    destruct (pickle_load f) as [e0|obj].
    { injection Hload as <- _. cbn. auto. }
    destruct (match files w !! metadata_path n with
              | Some g => json_load g
              | None => _
              end) as [e0|md]; [|discriminate].
    injection Hload as <- _. cbn. auto. }
  destruct (Hagain t w eq_refl eq_refl) as (_ & Hc1 & Hf1).
  rewrite Hload in Hc1, Hf1. cbn [snd] in Hc1, Hf1.
  split; [exact Hc1|]. split; [exact Hf1|]. exact Hagain.
Qed.

Lemma serve_failing (n : string) (e : exn) (w : world) :
  LOADED_MODELS w !! n = None ->
  (forall t' v,
     LOADED_MODELS v = LOADED_MODELS w -> files v = files w ->
     fst (load_model n t' v) = inl e
     /\ LOADED_MODELS (snd (load_model n t' v)) = LOADED_MODELS w
     /\ files (snd (load_model n t' v)) = files w) ->
  forall ts v,
    LOADED_MODELS v = LOADED_MODELS w -> files v = files w ->
    fst (serve n ts v) = map (fun _ => inl e) ts
    /\ load_attempts n (snd (serve n ts v))
       = (load_attempts n v + length ts)%nat
    /\ LOADED_MODELS (snd (serve n ts v)) = LOADED_MODELS w.
Proof.
  intros Hc Hagain ts. induction ts as [|t ts IH]; intros v Hcv Hfv.
  - cbn. split; [reflexivity|]. split; [lia | exact Hcv].
  - cbn [serve].
    destruct (Hagain t v Hcv Hfv) as (Hfst & Hc1 & Hf1).
    assert (Hmiss : LOADED_MODELS v !! n = None) by (rewrite Hcv; exact Hc).
    pose proof (load_model_miss_attempt n t v Hmiss) as Hcount.
    destruct (load_model n t v) as [r v1]. cbn [fst snd] in *. subst r.
    destruct (IH v1 Hc1 Hf1) as (Hrs & Hn & Hcache).
    destruct (serve n ts v1) as [rs v2]. cbn [fst snd] in *.
    split; [rewrite Hrs; reflexivity|].
    split; [rewrite Hn, Hcount; cbn; lia | exact Hcache].
Qed.

(** C3, as amended: N callers of one name that is not cached, served in
    turn.  When the load of the first caller succeeds it is the only load
    attempt made: the state after all callers is the state after the first,
    and every caller receives that same object.  When it fails nothing is
    cached: every caller makes a load attempt of its own, N attempts in all,
    and each receives an equal error.  No caller ever receives anything but
    the complete object or the error. *)
Theorem callers_in_turn_share_one_successful_load (model_name : string)
    (t : Z) (ts : list Z) (w : world) :
  LOADED_MODELS w !! model_name = None ->
  (forall a w1,
     load_model model_name t w = (inr a, w1) ->
     serve model_name (t :: ts) w = (inr a :: map (fun _ => inr a) ts, w1)
     /\ load_attempts model_name w1 = S (load_attempts model_name w))
  /\ (forall e w1,
        load_model model_name t w = (inl e, w1) ->
        fst (serve model_name (t :: ts) w) = inl e :: map (fun _ => inl e) ts
        /\ load_attempts model_name (snd (serve model_name (t :: ts) w))
           = (load_attempts model_name w + S (length ts))%nat
        /\ LOADED_MODELS (snd (serve model_name (t :: ts) w))
           = LOADED_MODELS w).
Proof.
  intros Hc. split.
  - intros a w1 Hload. split; [apply serve_after_success; exact Hload|].
    pose proof (load_model_miss_attempt model_name t w Hc) as Hn.
    rewrite Hload in Hn. exact Hn.
  - intros e w1 Hload.
    destruct (load_model_failure_again _ _ _ _ _ Hload) as (_ & _ & _ & Hagain).
    exact (serve_failing model_name e w Hc Hagain (t :: ts) w eq_refl eq_refl).
Qed.

End SingleFlight.

Lemma callers_in_turn_share_one_successful_load_witness :
  (exists a w1,
     serve "dynamic_pricing" [11; 12; 13] (Sample.pricing_world 200)
     = ([inr a; inr a; inr a], w1)
     /\ load_attempts "dynamic_pricing" w1 = 1%nat)
  /\ (exists e,
        fst (serve "fraud_detection" [11; 12; 13]
               (Sample.damaged "fraud_detection"))
        = [inl e; inl e; inl e]
        /\ load_attempts "fraud_detection"
             (snd (serve "fraud_detection" [11; 12; 13]
                     (Sample.damaged "fraud_detection"))) = 3%nat).
Proof.
  split.
  - destruct (Registry.load_model "dynamic_pricing" 11
                (Sample.pricing_world 200))
      as [[e|a] w1] eqn:Hload; [vm_compute in Hload; discriminate|].
    destruct (proj1 (callers_in_turn_share_one_successful_load
                       "dynamic_pricing" 11 [12; 13]
                       (Sample.pricing_world 200) eq_refl) a w1 Hload)
      as [Hserve Hcount].
    exists a, w1. split; [exact Hserve|]. rewrite Hcount. reflexivity.
  - destruct (Registry.load_model "fraud_detection" 11
                (Sample.damaged "fraud_detection"))
      as [[e|a] w1] eqn:Hload; [|vm_compute in Hload; discriminate].
    destruct (proj2 (callers_in_turn_share_one_successful_load
                       "fraud_detection" 11 [12; 13]
                       (Sample.damaged "fraud_detection") eq_refl) e w1 Hload)
      as (Hserve & Hcount & _).
    exists e. split; [exact Hserve|]. rewrite Hcount. reflexivity.
Defined.

(** C3 fails as stated when the load fails: three callers of a model whose
    pickle is damaged make three load attempts, not one. *)
Lemma failed_load_is_repeated_by_every_caller :
  fst (serve "fraud_detection" [11; 12; 13] (Sample.damaged "fraud_detection"))
  = [inl (HTTPException 500
            (MsgStr "Error loading model: "
               (PyExc "UnpicklingError" "pickle data was truncated")));
     inl (HTTPException 500
            (MsgStr "Error loading model: "
               (PyExc "UnpicklingError" "pickle data was truncated")));
     inl (HTTPException 500
            (MsgStr "Error loading model: "
               (PyExc "UnpicklingError" "pickle data was truncated")))]
  /\ load_attempts "fraud_detection"
       (snd (serve "fraud_detection" [11; 12; 13]
               (Sample.damaged "fraud_detection"))) = 3%nat
  /\ Registry.io_log
       (snd (serve "fraud_detection" [11; 12; 13]
               (Sample.damaged "fraud_detection")))
     = [Registry.Exists "models/fraud_detection.pkl";
        Registry.Open "models/fraud_detection.pkl";
        Registry.Exists "models/fraud_detection.pkl";
        Registry.Open "models/fraud_detection.pkl";
        Registry.Exists "models/fraud_detection.pkl";
        Registry.Open "models/fraud_detection.pkl"].
Proof. repeat split; vm_compute; reflexivity. Qed.

(** The limits of the formats at work: a number beyond the [float32] range
    becomes an infinity of the array, an [int] beyond the double range
    raises in the array and in the product with a float. *)
Lemma numbers_beyond_the_formats :
  Py.feature_vector ["amount"] (PyDict {[ "amount" := PyInt (10 ^ 40) ]})
  = inr [Inf false]
  /\ Py.feature_vector ["amount"] (PyDict {[ "amount" := PyInt (- 10 ^ 40) ]})
     = inr [Inf true]
  /\ Py.feature_vector ["amount"] (PyDict {[ "amount" := PyInt (10 ^ 400) ]})
     = inl (PyExc "OverflowError" "int too large to convert to float")
  /\ fst (Dispatcher.predict_pricing {[ "current_price" := PyInt (10 ^ 400) ]}
            Sample.license Sample.clk (Sample.pricing_world 200))
     = inl (Dispatcher.prediction_error
              (PyExc "OverflowError" "int too large to convert to float")).
Proof. repeat split; vm_compute; reflexivity. Qed.

Lemma model_status_needs_no_license_witness :
  exists resp,
    fst (Service.model_status (Service.verify_license None None 0)
           (fun _ => 10) 20 (Sample.pricing_world 200)) = inr resp
    /\ Service.license_valid resp = false
    /\ map Service.name (Service.models resp) = ["dynamic_pricing"]
    /\ map Service.available (Service.models resp) = [false].
Proof.
  destruct (model_status_needs_no_license (Service.verify_license None None 0)
              (fun _ => 10) 20 (Sample.pricing_world 200))
    as (resp & Hrun & Hvalid & _ & _).
  - intros n g Hn Hm Hg. cbn in Hn.
    repeat (apply elem_of_cons in Hn; destruct Hn as [->|Hn];
            [vm_compute in Hm; vm_compute in Hg;
             first [ solve [destruct Hm as [? [=]]]
                   | injection Hg as <-; eexists; reflexivity ]|]).
    inversion Hn.
  - exists resp. split; [exact Hrun|]. split; [rewrite Hvalid; reflexivity|].
    vm_compute in Hrun. injection Hrun as <-. split; reflexivity.
Defined.
